(** * Donizo pricing engine: the quote-building pipeline of [pricing_engine.py]

    A shallow embedding of [parse_transcript], [apply_margin_protection],
    [compute_confidence], [generate_quote_id] and [build_quote], and the
    properties of the quote they produce.

    Modelling conventions.
    - A Python [str] holding the transcript is a list of Unicode code points.
      What the Python runtime decides about code points ([str.lower], the
      regex classes [\d] and [\s]) is a field of [PyUnicode]; every theorem
      holds for any such runtime, and [ascii_runtime] is used to evaluate
      ASCII transcripts.
    - A Python [float] is an exact rational ([Q]): [+], [*] and [/] are exact
      and [round(x, 2)] is rounding to the nearest hundredth, ties to even.
      The binary rounding error of double arithmetic, infinities and NaN are
      outside this model.  Numbers are compared with [==] ([Qeq]).
    - An exception is a value of [result]; a loop is a fold that threads the
      accumulators and stops at the first exception.
    - The package [pricing_logic] (material, labour and VAT tables) is not
      part of the sources at hand: it is the record [Providers]. *)

From Stdlib Require Import List String Ascii Bool ZArith NArith QArith Qround Qabs Lia Lqa.
From Stdlib Require Import PrimFloat SpecFloat FloatOps.
Import ListNotations.

Local Open Scope Q_scope.

(** ** Exceptions *)

Inductive exn : Type :=
| TypeError
| ZeroDivisionError
| ProviderError (msg : string).

Inductive result (A : Type) : Type :=
| Ok (a : A)
| Raise (e : exn).

Arguments Ok {A} a.
Arguments Raise {A} e.

Definition bind {A B : Type} (r : result A) (k : A -> result B) : result B :=
  match r with
  | Ok a => k a
  | Raise e => Raise e
  end.

Notation "x <- r ;; k" := (bind r (fun x => k))
  (at level 61, r at next level, right associativity).

Definition raises {A : Type} (r : result A) : Prop :=
  exists e, r = Raise e.

(** ** Python values that may be [None] *)

(** [VNum] carries both [int] and [float] values: the arithmetic of the
    engine does not tell them apart. *)
Inductive value : Type :=
| VNone
| VNum (q : Q).

(** Truthiness of a value: [None] and zero are false. *)
Definition truthy (v : value) : bool :=
  match v with
  | VNone => false
  | VNum q => negb (Qeq_bool q 0)
  end.

(** [cost / qty] where [cost] is a float and [qty] any value. *)
Definition truediv (cost : Q) (qty : value) : result Q :=
  match qty with
  | VNone => Raise TypeError
  | VNum q => if Qeq_bool q 0 then Raise ZeroDivisionError else Ok (cost / q)
  end.

(** Python's [max(a, b)] and [min(a, b)]: the first argument unless the
    second is strictly larger (smaller). *)
Definition py_max (a b : Q) : Q :=
  match Qcompare b a with Gt => b | _ => a end.

Definition py_min (a b : Q) : Q :=
  match Qcompare b a with Lt => b | _ => a end.

(** [round(x, 2)]: nearest hundredth, ties to the even one. *)
Definition round_half_even (q : Q) : Z :=
  let f := Qfloor q in
  match Qcompare (q - inject_Z f) (1 # 2) with
  | Lt => f
  | Gt => (f + 1)%Z
  | Eq => if Z.even f then f else (f + 1)%Z
  end.

Definition round2 (q : Q) : Q :=
  inject_Z (round_half_even (q * 100)) / 100.

(** Left-to-right sum, as a chain of [+=] from [0.0]. *)
Definition Qsum (l : list Q) : Q := fold_left Qplus l 0.

(** ** Text *)

Definition char := N.
Definition str := list char.

(** An ASCII literal of the source as code points. *)
Definition lit (s : string) : str :=
  map N_of_ascii (list_ascii_of_string s).

Fixpoint starts_with (pat s : str) : bool :=
  match pat, s with
  | [], _ => true
  | _ :: _, [] => false
  | p :: pat', c :: s' => N.eqb p c && starts_with pat' s'
  end.

(** [pat in s]. *)
Fixpoint str_in (pat s : str) : bool :=
  starts_with pat s ||
  match s with
  | [] => false
  | _ :: s' => str_in pat s'
  end.

(** [pat in name] for two ASCII strings. *)
Definition name_has (pat name : string) : bool :=
  str_in (lit pat) (lit name).

Definition ascii_upper (c : ascii) : ascii :=
  let n := nat_of_ascii c in
  if (97 <=? n)%nat && (n <=? 122)%nat then ascii_of_nat (n - 32) else c.

Definition ascii_lower (c : ascii) : ascii :=
  let n := nat_of_ascii c in
  if (65 <=? n)%nat && (n <=? 90)%nat then ascii_of_nat (n + 32) else c.

Fixpoint map_string (f : ascii -> ascii) (s : string) : string :=
  match s with
  | EmptyString => EmptyString
  | String c r => String (f c) (map_string f r)
  end.

(** [str.capitalize()] on an ASCII string. *)
Definition capitalize (s : string) : string :=
  match s with
  | EmptyString => EmptyString
  | String c r => String (ascii_upper c) (map_string ascii_lower r)
  end.

(** What the Python runtime knows about code points. *)
Record PyUnicode : Type := {
  str_lower : str -> str;        (* str.lower() *)
  re_digit : char -> option N;   (* \d, with the digit's decimal value *)
  re_space : char -> bool        (* \s *)
}.

(** The runtime restricted to ASCII: enough to run ASCII transcripts. *)
Definition ascii_runtime : PyUnicode := {|
  str_lower := map (fun c => if (65 <=? c)%N && (c <=? 90)%N then (c + 32)%N else c);
  re_digit := fun c => if (48 <=? c)%N && (c <=? 57)%N then Some (c - 48)%N else None;
  re_space := fun c => (c =? 32)%N || ((9 <=? c)%N && (c <=? 13)%N)
|}.

Section Regex.

Variable U : PyUnicode.

(** [m[²2]] at the head of [r]. *)
Definition unit_here (r : str) : bool :=
  match r with
  | m :: u :: _ => N.eqb m 109 && (N.eqb u 178 || N.eqb u 50)
  | _ => false
  end.

(** [\s?m[²2]] at the head of [r]: with the space taken, else without. *)
Definition space_unit_here (r : str) : bool :=
  match r with
  | c :: r' => (re_space U c && unit_here r') || unit_here r
  | [] => false
  end.

(** [(\d+)\s?m[²2]] anchored at the head of [s], by backtracking: one more
    digit is tried first, then the rest of the pattern.  The result is the
    digits of group 1. *)
Fixpoint match_area_at (s : str) : option (list N) :=
  match s with
  | c :: s' =>
      match re_digit U c with
      | Some d =>
          match match_area_at s' with
          | Some ds => Some (d :: ds)
          | None => if space_unit_here s' then Some [d] else None
          end
      | None => None
      end
  | [] => None
  end.

(** [re.search(r"(\d+)\s?m[²2]", s)]: the leftmost match. *)
Fixpoint re_search_area (s : str) : option (list N) :=
  match match_area_at s with
  | Some ds => Some ds
  | None =>
      match s with
      | [] => None
      | _ :: s' => re_search_area s'
      end
  end.

(** [float(digits)]. *)
Definition float_of_digits (ds : list N) : Q :=
  inject_Z (Z.of_N (fold_left (fun acc d => acc * 10 + d)%N ds 0%N)).

Definition city_names : list string := ["marseille"; "paris"; "lyon"]%string.

Definition match_city_at (s : str) : option string :=
  find (fun c => starts_with (lit c) s) city_names.

(** [re.search(r"(marseille|paris|lyon)", s)]: group 1 of the leftmost match. *)
Fixpoint re_search_city (s : str) : option string :=
  match match_city_at s with
  | Some c => Some c
  | None =>
      match s with
      | [] => None
      | _ :: s' => re_search_city s'
      end
  end.

End Regex.

(** ** Data model *)

(** A task dict of [parse_transcript].  [area_m2 = None] is a dict without
    the key ["area_m2"]; [Some VNone] is the key bound to [None]. *)
Record TaskIntent : Type := {
  task_name : string;
  area_m2 : option value
}.

(** [task.get("area_m2")] and [task.get("area_m2", default)]. *)
Definition get_area (task : TaskIntent) : value :=
  match area_m2 task with
  | Some v => v
  | None => VNone
  end.

Definition get_area_default (task : TaskIntent) (default : value) : value :=
  match area_m2 task with
  | Some v => v
  | None => default
  end.

Module Parsed.
Record t : Type := {
  zone : string;
  city : option string;
  budget_flag : bool;
  tasks : list TaskIntent;
  area_m2 : value
}.
End Parsed.

Module Labor.
Record t : Type := {
  hours : Q;
  hourly_rate : Q;
  cost : Q
}.
End Labor.

Module Material.
Record t : Type := {
  name : string;
  qty : value;
  unit_cost : Q;
  total : Q
}.
End Material.

(** A task record of the output. *)
Module Task.
Record t : Type := {
  task_name : string;
  area_m2 : value;
  labor : Labor.t;
  materials : list Material.t;
  estimated_duration_hours : Q;
  vat_rate : Q;
  margin_pct : Q;
  price_ex_vat : Q;
  vat_amount : Q;
  total_price : Q;
  confidence : Q
}.
End Task.

Module Zone.
Record t : Type := {
  zone_name : string;
  tasks : list Task.t
}.
End Zone.

Module Summary.
Record t : Type := {
  total_labor_cost : Q;
  total_material_cost : Q;
  total_vat : Q;
  total_price : Q;
  estimated_duration_hours : Q;
  confidence_score : Q;
  suspicious_input : bool
}.
End Summary.

Module Quote.
Record t : Type := {
  system : string;
  quote_id : string;
  raw_transcript : str;
  location : string;
  currency : string;
  zones : list Zone.t;
  summary : Summary.t
}.
End Quote.

(** Modelled from the spec: the package [pricing_logic] ([material_db],
    [labor_calc], [vat_rules]) is imported by the engine and absent from the
    sources.  Its interface (section 6) gives three total collaborators
    keyed by task, SKU and city, and the engine also calls [estimate_hours]
    and [compute_labor_cost].  [get_material_cost] is the one collaborator
    that the code of the engine can hand [None] as quantity, which its
    contract does not cover: it returns a number or raises. *)
Record Providers : Type := {
  get_material_cost : string -> value -> string -> result Q;
  estimate_hours : string -> value -> Q;
  compute_labor_cost : Q -> string -> Q;
  hourly_rate : string -> Q;
  get_vat_rate : string -> string -> Q
}.

(** ** Utility functions *)

(** [uuid_hex] is [uuid.uuid4().hex], drawn afresh by every call. *)
Definition generate_quote_id (uuid_hex : string) : string :=
  ("donizo-" ++ substring 0 8 uuid_hex)%string.

Definition append_if {A : Type} (c : bool) (x : A) (l : list A) : list A :=
  if c then l ++ [x] else l.

Section Parse.

Variable U : PyUnicode.

Definition parse_transcript (text : str) : Parsed.t :=
  let low := str_lower U text in
  let zone := if str_in (lit "bathroom") low then "bathroom"%string else "general"%string in
  let area_match := re_search_area U low in
  let area_m2 :=
    match area_match with
    | Some ds => VNum (float_of_digits ds)
    | None => VNone
    end in
  let city_match := re_search_city low in
  let city := option_map capitalize city_match in
  let budget_flag := str_in (lit "budget") low in
  let tasks := [] in
  let tasks := append_if (str_in (lit "tile") low)
    {| task_name := "Floor Tiling (ceramic)"; area_m2 := Some area_m2 |} tasks in
  let tasks := append_if (str_in (lit "paint") low || str_in (lit "repaint") low)
    {| task_name := "Repaint Walls"; area_m2 := None |} tasks in
  let tasks := append_if (str_in (lit "plumb") low)
    {| task_name := "Shower Plumbing (redo)"; area_m2 := None |} tasks in
  let tasks := append_if (str_in (lit "toilet") low)
    {| task_name := "Replace Toilet"; area_m2 := None |} tasks in
  let tasks := append_if (str_in (lit "vanity") low)
    {| task_name := "Install Vanity"; area_m2 := None |} tasks in
  let tasks := append_if (str_in (lit "remove old tile") low
                          || str_in (lit "remove the old tiles") low)
    {| task_name := "Demolition & Disposal"; area_m2 := None |} tasks in
  {| Parsed.zone := zone;
     Parsed.city := city;
     Parsed.budget_flag := budget_flag;
     Parsed.tasks := tasks;
     Parsed.area_m2 := area_m2 |}.

End Parse.

Definition apply_margin_protection (base_price default_margin min_margin : Q) : Q * Q :=
  let margin_pct := py_max default_margin min_margin in
  let margin_amount := base_price * margin_pct in
  (margin_pct, margin_amount).

Definition nonempty (s : string) : bool :=
  match s with
  | EmptyString => false
  | String _ _ => true
  end.

Definition compute_confidence (task : TaskIntent) (city : string) : Q :=
  let score := 0 in
  let score := score + (if nonempty (task_name task) then 4 # 10 else 0) in
  let score := score + (if truthy (get_area task)
                           || (match area_m2 task with None => true | Some _ => false end)
                        then 2 # 10 else 0) in
  let score := score + (if nonempty city then 2 # 10 else 1 # 10) in
  let score := score + (2 # 10) in
  py_min score 1.

(** ** Core engine *)

(** The local variables of one iteration of the loop of [build_quote]. *)
Module Locals.
Record t : Type := {
  hours : Q;
  labor_cost : Q;
  materials : list Material.t;
  mat_cost : Q;
  base_price : Q;
  margin_pct : Q;
  price_ex_vat : Q;
  vat_rate : Q;
  vat_amount : Q;
  total_task_price : Q;
  confidence : Q
}.
End Locals.

(** The accumulators of the loop. *)
Module Acc.
Record t : Type := {
  tasks_out : list Task.t;
  total_labor_cost : Q;
  total_material_cost : Q;
  total_vat : Q;
  total_price : Q;
  total_hours : Q;
  weighted_conf_sum : Q;
  weighted_cost_sum : Q
}.
End Acc.

Section Engine.

Variable P : Providers.

Definition fixture (sku : string) (city : string) : result (list Material.t * Q) :=
  cost <- get_material_cost P sku (VNum 1) city ;;
  Ok ([{| Material.name := sku; Material.qty := VNum 1;
          Material.unit_cost := cost; Material.total := cost |}], 0 + cost).

(** The [if]/[elif] chain on the task name: the material lines and
    [mat_cost]. *)
Definition task_materials (task : TaskIntent) (city : string)
  : result (list Material.t * Q) :=
  let tname := task_name task in
  if name_has "Tile" tname then
    let qty := get_area_default task (VNum 4) in
    cost <- get_material_cost P "tiles_ceramic_m2" qty city ;;
    unit_cost <- truediv cost qty ;;
    Ok ([{| Material.name := "tiles_ceramic_m2"; Material.qty := qty;
            Material.unit_cost := unit_cost; Material.total := cost |}], 0 + cost)
  else if name_has "Paint" tname then
    let qty := VNum 5 in
    cost <- get_material_cost P "paint_litre" qty city ;;
    unit_cost <- truediv cost qty ;;
    Ok ([{| Material.name := "paint_litre"; Material.qty := qty;
            Material.unit_cost := unit_cost; Material.total := cost |}], 0 + cost)
  else if name_has "Plumbing" tname then fixture "plumbing_parts" city
  else if name_has "Toilet" tname then fixture "toilet_standard" city
  else if name_has "Vanity" tname then fixture "vanity_basic" city
  else if name_has "Demolition" tname then fixture "disposal_fee" city
  else Ok ([], 0).

(** The body of the loop up to the task's confidence. *)
Definition price_task (city : string) (task : TaskIntent) : result Locals.t :=
  let tname := task_name task in
  let hours := estimate_hours P tname (get_area task) in
  let labor_cost := compute_labor_cost P hours city in
  mm <- task_materials task city ;;
  let (materials, mat_cost) := (mm : list Material.t * Q) in
  let base_price := labor_cost + mat_cost in
  let (margin_pct, margin_amount) :=
    apply_margin_protection base_price (12 # 100) (5 # 100) in
  let price_ex_vat := base_price + margin_amount in
  let vat_rate := get_vat_rate P tname city in
  let vat_amount := price_ex_vat * vat_rate in
  let total_task_price := price_ex_vat + vat_amount in
  let confidence := compute_confidence task city in
  Ok {| Locals.hours := hours;
        Locals.labor_cost := labor_cost;
        Locals.materials := materials;
        Locals.mat_cost := mat_cost;
        Locals.base_price := base_price;
        Locals.margin_pct := margin_pct;
        Locals.price_ex_vat := price_ex_vat;
        Locals.vat_rate := vat_rate;
        Locals.vat_amount := vat_amount;
        Locals.total_task_price := total_task_price;
        Locals.confidence := confidence |}.

(** The dict appended to [tasks_out]. *)
Definition task_record (hourly : Q) (task : TaskIntent) (l : Locals.t) : Task.t :=
  {| Task.task_name := task_name task;
     Task.area_m2 := get_area task;
     Task.labor := {| Labor.hours := Locals.hours l;
                      Labor.hourly_rate := hourly;
                      Labor.cost := Locals.labor_cost l |};
     Task.materials := Locals.materials l;
     Task.estimated_duration_hours := Locals.hours l;
     Task.vat_rate := Locals.vat_rate l;
     Task.margin_pct := Locals.margin_pct l;
     Task.price_ex_vat := round2 (Locals.price_ex_vat l);
     Task.vat_amount := round2 (Locals.vat_amount l);
     Task.total_price := round2 (Locals.total_task_price l);
     Task.confidence := round2 (Locals.confidence l) |}.

(** The end of the loop body: the append and the [+=] on the totals. *)
Definition accumulate (hourly : Q) (acc : Acc.t) (task : TaskIntent) (l : Locals.t) : Acc.t :=
  {| Acc.tasks_out := Acc.tasks_out acc ++ [task_record hourly task l];
     Acc.total_labor_cost := Acc.total_labor_cost acc + Locals.labor_cost l;
     Acc.total_material_cost := Acc.total_material_cost acc + Locals.mat_cost l;
     Acc.total_vat := Acc.total_vat acc + Locals.vat_amount l;
     Acc.total_price := Acc.total_price acc + Locals.total_task_price l;
     Acc.total_hours := Acc.total_hours acc + Locals.hours l;
     Acc.weighted_conf_sum :=
       Acc.weighted_conf_sum acc + Locals.confidence l * Locals.total_task_price l;
     Acc.weighted_cost_sum := Acc.weighted_cost_sum acc + Locals.total_task_price l |}.

Definition loop_body (city : string) (hourly : Q) (acc : Acc.t) (task : TaskIntent)
  : result Acc.t :=
  l <- price_task city task ;;
  Ok (accumulate hourly acc task l).

(** [for task in parsed["tasks"]]: the first exception ends the run. *)
Fixpoint loop (city : string) (hourly : Q) (acc : Acc.t) (tasks : list TaskIntent)
  : result Acc.t :=
  match tasks with
  | [] => Ok acc
  | task :: rest =>
      acc' <- loop_body city hourly acc task ;;
      loop city hourly acc' rest
  end.

Definition acc0 : Acc.t :=
  {| Acc.tasks_out := [];
     Acc.total_labor_cost := 0;
     Acc.total_material_cost := 0;
     Acc.total_vat := 0;
     Acc.total_price := 0;
     Acc.total_hours := 0;
     Acc.weighted_conf_sum := 0;
     Acc.weighted_cost_sum := 0 |}.

(** [weighted_conf_sum / weighted_cost_sum if weighted_cost_sum else 0.0]. *)
Definition global_conf (acc : Acc.t) : Q :=
  if truthy (VNum (Acc.weighted_cost_sum acc))
  then Acc.weighted_conf_sum acc / Acc.weighted_cost_sum acc
  else 0.

(** [parsed["city"] or "Generic"]. *)
Definition city_or_generic (c : option string) : string :=
  match c with
  | Some s => if nonempty s then s else "Generic"%string
  | None => "Generic"%string
  end.

Definition out_json (uuid_hex : string) (transcript_text : str) (city zone_name : string)
  (acc : Acc.t) : Quote.t :=
  let g := global_conf acc in
  {| Quote.system := "T";
     Quote.quote_id := generate_quote_id uuid_hex;
     Quote.raw_transcript := transcript_text;
     Quote.location := city;
     Quote.currency := "EUR";
     Quote.zones := [{| Zone.zone_name := zone_name; Zone.tasks := Acc.tasks_out acc |}];
     Quote.summary :=
       {| Summary.total_labor_cost := round2 (Acc.total_labor_cost acc);
          Summary.total_material_cost := round2 (Acc.total_material_cost acc);
          Summary.total_vat := round2 (Acc.total_vat acc);
          Summary.total_price := round2 (Acc.total_price acc);
          Summary.estimated_duration_hours := round2 (Acc.total_hours acc);
          Summary.confidence_score := round2 g;
          Summary.suspicious_input :=
            match Qcompare g (6 # 10) with Lt => true | _ => false end |} |}.

Variable U : PyUnicode.

Definition build_quote (uuid_hex : string) (transcript_text : str) : result Quote.t :=
  let parsed := parse_transcript U transcript_text in
  let city := city_or_generic (Parsed.city parsed) in
  let zone_name := Parsed.zone parsed in
  let hourly := hourly_rate P city in
  acc <- loop city hourly acc0 (Parsed.tasks parsed) ;;
  Ok (out_json uuid_hex transcript_text city zone_name acc).

End Engine.

(** ** The trigger table *)

(** The trigger list as the specification words it: an ordered table of
    alternative phrases and the task each one contributes, the tiling task
    carrying the area. *)
Definition trigger_table : list (list string * (value -> TaskIntent)) :=
  [ (["tile"]%string,
     fun a => {| task_name := "Floor Tiling (ceramic)"; area_m2 := Some a |});
    (["paint"; "repaint"]%string,
     fun _ => {| task_name := "Repaint Walls"; area_m2 := None |});
    (["plumb"]%string,
     fun _ => {| task_name := "Shower Plumbing (redo)"; area_m2 := None |});
    (["toilet"]%string,
     fun _ => {| task_name := "Replace Toilet"; area_m2 := None |});
    (["vanity"]%string,
     fun _ => {| task_name := "Install Vanity"; area_m2 := None |});
    (["remove old tile"; "remove the old tiles"]%string,
     fun _ => {| task_name := "Demolition & Disposal"; area_m2 := None |}) ].

Definition fires (low : str) (t : list string * (value -> TaskIntent)) : bool :=
  existsb (fun phrase => str_in (lit phrase) low) (fst t).

(** One task per trigger that fires, in the order of the table. *)
Definition tasks_by_table (low : str) (area : value) : list TaskIntent :=
  map (fun t => snd t area) (filter (fires low) trigger_table).

(** Every phrase of the table. *)
Definition trigger_phrases : list string := flat_map fst trigger_table.

Definition no_trigger (low : str) : bool :=
  forallb (fun phrase => negb (str_in (lit phrase) low)) trigger_phrases.

(** The shapes of the tasks the parser emits: the tiling task, whose dict
    binds ["area_m2"], or a named task whose dict does not. *)
Definition parser_task (t : TaskIntent) : Prop :=
  (task_name t = "Floor Tiling (ceramic)"%string /\ exists v, area_m2 t = Some v)
  \/ (nonempty (task_name t) = true /\ name_has "Tile" (task_name t) = false
      /\ area_m2 t = None).


(** ** Views of a run *)

Section Views.

Variable P : Providers.

(** The locals of every iteration in order: the loop without its
    accumulators.  It stops at the same exception as [loop]. *)
Fixpoint price_all (city : string) (tasks : list TaskIntent) : result (list Locals.t) :=
  match tasks with
  | [] => Ok []
  | task :: rest =>
      l <- price_task P city task ;;
      ls <- price_all city rest ;;
      Ok (l :: ls)
  end.

(** The accumulators after the iterations whose tasks and locals are
    paired in [tl]. *)
Definition accumulate_all (hourly : Q) (acc : Acc.t) (tl : list (TaskIntent * Locals.t))
  : Acc.t :=
  fold_left (fun a x => accumulate hourly a (fst x) (snd x)) tl acc.

End Views.

(** The task records of a quote, across all its zones. *)
Definition quote_tasks (q : Quote.t) : list Task.t :=
  flat_map Zone.tasks (Quote.zones q).

(** [base_cost] of an output task: labour cost plus the material totals. *)
Definition base_cost (t : Task.t) : Q :=
  Labor.cost (Task.labor t) + Qsum (map Material.total (Task.materials t)).

(** A quote with another identifier. *)
Definition with_quote_id (id : string) (q : Quote.t) : Quote.t :=
  {| Quote.system := Quote.system q;
     Quote.quote_id := id;
     Quote.raw_transcript := Quote.raw_transcript q;
     Quote.location := Quote.location q;
     Quote.currency := Quote.currency q;
     Quote.zones := Quote.zones q;
     Quote.summary := Quote.summary q |}.

(** Two provider sets answer alike for one city ([estimate_hours] takes no
    city). *)
Definition agree_at (c : string) (P P' : Providers) : Prop :=
  (forall sku qty, get_material_cost P sku qty c = get_material_cost P' sku qty c)
  /\ (forall tname area, estimate_hours P tname area = estimate_hours P' tname area)
  /\ (forall h, compute_labor_cost P h c = compute_labor_cost P' h c)
  /\ hourly_rate P c = hourly_rate P' c
  /\ (forall tname, get_vat_rate P tname c = get_vat_rate P' tname c).

(** [a] and [b] agree within the relative tolerance [rel], measured on
    either of the two. *)
Definition within_rel (rel a b : Q) : Prop :=
  Qabs (a - b) <= rel * Qabs a \/ Qabs (a - b) <= rel * Qabs b.

(** Modelled from the spec: the providers deal in amounts of money, hours
    and a VAT rate in [0,1] (section 6); none of them is negative. *)
Definition nonneg_providers (P : Providers) : Prop :=
  (forall sku q c x, 0 <= q -> get_material_cost P sku (VNum q) c = Ok x -> 0 <= x)
  /\ (forall tname area, 0 <= estimate_hours P tname area)
  /\ (forall h c, 0 <= h -> 0 <= compute_labor_cost P h c)
  /\ (forall tname c, 0 <= get_vat_rate P tname c).

(** ** Provider sets to run the engine on *)

Definition city_multiplier (c : string) : Q :=
  if String.eqb c "Paris" then 125 # 100 else 1.

Definition ceil_quarter (x : Q) : Q := inject_Z (Qceiling (x * 4)) / 4.

(** Modelled from the spec: the tables of [pricing_logic] as far as section 8
    and [tests/test_logic.py] fix them: ceramic tiles at 25 per square metre,
    materials 1.25 times dearer in Paris, labour at 40 an hour in Marseille
    and dearer in Paris, tiling at 0.9 hours per square metre rounded up to
    the quarter hour, VAT at 0.20.  What they leave open (the other SKUs,
    the other durations, the Paris labour rate) is filled with placeholders
    that only serve to run the engine.  A quantity that is [None] raises, as
    a product with [None] does. *)
Definition table_providers : Providers := {|
  get_material_cost := fun sku qty c =>
    match qty with
    | VNone => Raise TypeError
    | VNum q =>
        Ok ((if String.eqb sku "tiles_ceramic_m2" then 25 else 50) * q * city_multiplier c)
    end;
  estimate_hours := fun tname area =>
    match area with
    | VNum a => if name_has "Tiling" tname && Qle_bool 0 a && truthy area
                then ceil_quarter ((9 # 10) * a) else 2
    | VNone => 2
    end;
  compute_labor_cost := fun h c => h * (40 * city_multiplier c);
  hourly_rate := fun c => 40 * city_multiplier c;
  get_vat_rate := fun _ _ => 20 # 100
|}.

(** A provider set with free labour, no VAT and one flat price for every
    material line. *)
Definition flat_providers (price : Q) : Providers := {|
  get_material_cost := fun _ _ _ => Ok price;
  estimate_hours := fun _ _ => 0;
  compute_labor_cost := fun _ _ => 0;
  hourly_rate := fun _ => 0;
  get_vat_rate := fun _ _ => 0
|}.

(** ** Transcripts to run the engine on *)

(** The transcript of the end-to-end test. *)
Definition sample_transcript : str :=
  lit "Client wants to renovate a small 4m" ++ [178%N]
  ++ lit " bathroom. They'll remove the old tiles, redo the plumbing for the shower, replace the toilet, install a vanity, repaint the walls, and lay new ceramic floor tiles. Budget-conscious. Located in Marseille.".

(** Two draws of [uuid.uuid4().hex] that share their first eight digits. *)
Definition uuid_a : string := "0123456789ab4cde8f0123456789abcd".
Definition uuid_b : string := "01234567ffff4fff8fffffffffffffff".

(** ** Further views of a quote *)

(** A quote with another transcript in its [client] entry. *)
Definition with_raw_transcript (text : str) (q : Quote.t) : Quote.t :=
  {| Quote.system := Quote.system q;
     Quote.quote_id := Quote.quote_id q;
     Quote.raw_transcript := text;
     Quote.location := Quote.location q;
     Quote.currency := Quote.currency q;
     Quote.zones := Quote.zones q;
     Quote.summary := Quote.summary q |}.

(** The task names of the parser, in the order of its [if]s. *)
Definition catalog : list string :=
  [ "Floor Tiling (ceramic)"; "Repaint Walls"; "Shower Plumbing (redo)";
    "Replace Toilet"; "Install Vanity"; "Demolition & Disposal" ]%string.

(** [sub] is [l] with some elements left out, the order kept. *)
Fixpoint subsequence (sub l : list string) : bool :=
  match sub, l with
  | [], _ => true
  | _ :: _, [] => false
  | x :: sub', y :: l' =>
      if String.eqb x y then subsequence sub' l' else subsequence sub l'
  end.

(** The pattern [(\d+)\s?m[²2]] matches at the head of [s] with the digits
    [ds] as group 1: [s] starts with a non-empty run of digit characters of
    values [ds], followed by the optional space and the unit. *)
Definition area_match_here (U : PyUnicode) (ds : list N) (s : str) : Prop :=
  exists cs rest,
    s = cs ++ rest
    /\ cs <> []
    /\ Forall2 (fun c d => re_digit U c = Some d) cs ds
    /\ space_unit_here U rest = true.

(** A provider set whose material lookup raises for one city. *)
Definition down_providers (c : string) : Providers := {|
  get_material_cost := fun sku qty city =>
    if String.eqb city c then Raise (ProviderError "no price list")
    else get_material_cost table_providers sku qty city;
  estimate_hours := estimate_hours table_providers;
  compute_labor_cost := compute_labor_cost table_providers;
  hourly_rate := hourly_rate table_providers;
  get_vat_rate := get_vat_rate table_providers
|}.

(** ** Doubles *)

(** The exact value of a finite double (0 for infinities and NaN). *)
Definition Q_of_float (f : float) : Q :=
  match Prim2SF f with
  | S754_finite s m e =>
      let v := inject_Z (Z.pos m) * Qpower 2 e in
      if s then - v else v
  | _ => 0
  end.
(** ** Rounding *)

Lemma round_half_even_bound (x : Q) :
  x - (1 # 2) <= inject_Z (round_half_even x) <= x + (1 # 2).
Proof.
  unfold round_half_even.
  pose proof (Qfloor_le x) as Hlo.
  pose proof (Qlt_floor x) as Hhi.
  rewrite inject_Z_plus in Hhi.
  change (inject_Z 1) with 1 in Hhi.
  destruct (Qcompare_spec (x - inject_Z (Qfloor x)) (1 # 2)) as [He | Hl | Hg].
  - destruct (Z.even (Qfloor x)).
    + lra.
    + rewrite inject_Z_plus. change (inject_Z 1) with 1. lra.
  - lra.
  - rewrite inject_Z_plus. change (inject_Z 1) with 1. lra.
Qed.

Lemma round_half_even_comp (x y : Q) :
  x == y -> round_half_even x = round_half_even y.
Proof.
  intros H. unfold round_half_even.
  rewrite (Qfloor_comp _ _ H).
  assert (Hc : Qcompare (x - inject_Z (Qfloor y)) (1 # 2)
               = Qcompare (y - inject_Z (Qfloor y)) (1 # 2)).
  { apply Qcompare_comp; [rewrite H; reflexivity | reflexivity]. }
  rewrite Hc. reflexivity.
Qed.

Lemma round_half_even_inject (z : Z) : round_half_even (inject_Z z) = z.
Proof.
  unfold round_half_even. rewrite Qfloor_Z.
  assert (H : Qcompare (inject_Z z - inject_Z z) (1 # 2) = Lt).
  { apply (proj1 (Qlt_alt _ _)). lra. }
  rewrite H. reflexivity.
Qed.

Lemma round2_comp (x y : Q) : x == y -> round2 x = round2 y.
Proof.
  intros H. unfold round2.
  rewrite (round_half_even_comp (x * 100) (y * 100)); [reflexivity |].
  rewrite H. reflexivity.
Qed.

(** Rounding moves a number by half a cent at most. *)
Lemma round2_bound (x : Q) : Qabs (round2 x - x) <= 1 # 200.
Proof.
  unfold round2.
  pose proof (round_half_even_bound (x * 100)) as [Hlo Hhi].
  apply Qabs_Qle_condition.
  set (r := inject_Z (round_half_even (x * 100))) in *.
  split.
  - assert (E : r / 100 - x == (r - x * 100) / 100) by (field).
    rewrite E. apply Qle_shift_div_l; [reflexivity | lra].
  - assert (E : r / 100 - x == (r - x * 100) / 100) by (field).
    rewrite E. apply Qle_shift_div_r; [reflexivity | lra].
Qed.

(** A number of whole cents is its own rounding. *)
Lemma round2_cents (z : Z) : round2 (inject_Z z / 100) = inject_Z z / 100.
Proof.
  unfold round2.
  rewrite (round_half_even_comp (inject_Z z / 100 * 100) (inject_Z z)).
  - rewrite round_half_even_inject. reflexivity.
  - field.
Qed.

Lemma Z_abs_le_1_of_Q (z : Z) :
  - (3 # 2) <= inject_Z z <= 3 # 2 -> (-1 <= z <= 1)%Z.
Proof.
  intros [Hlo Hhi].
  destruct (Z_lt_le_dec z (-1)) as [Hz | Hz].
  - exfalso.
    assert (H : inject_Z z <= inject_Z (-2)) by (rewrite <- Zle_Qle; lia).
    change (inject_Z (-2)) with (-2 # 1) in H. lra.
  - destruct (Z_lt_le_dec 1 z) as [Hz' | Hz']; [| lia].
    exfalso.
    assert (H : inject_Z 2 <= inject_Z z) by (rewrite <- Zle_Qle; lia).
    change (inject_Z 2) with 2 in H. lra.
Qed.

(** Rounding a sum and summing the roundings differ by one cent at most. *)
Lemma round2_sum_tolerance (p v : Q) :
  Qabs (round2 (p + v) - round2 (round2 p + round2 v)) <= 1 # 100.
Proof.
  unfold round2 at 3 4.
  set (a := round_half_even (p * 100)).
  set (b := round_half_even (v * 100)).
  rewrite (round2_comp (inject_Z a / 100 + inject_Z b / 100) (inject_Z (a + b) / 100))
    by (rewrite inject_Z_plus; field).
  rewrite round2_cents.
  unfold round2.
  set (c := round_half_even ((p + v) * 100)).
  pose proof (round_half_even_bound (p * 100)) as Ha.
  pose proof (round_half_even_bound (v * 100)) as Hb.
  pose proof (round_half_even_bound ((p + v) * 100)) as Hc.
  fold a in Ha. fold b in Hb. fold c in Hc.
  assert (Hz : (-1 <= c - (a + b) <= 1)%Z).
  { apply Z_abs_le_1_of_Q.
    unfold Z.sub. rewrite inject_Z_plus, inject_Z_opp, inject_Z_plus. lra. }
  assert (E : inject_Z c / 100 - inject_Z (a + b) / 100
              == inject_Z (c - (a + b)) / 100).
  { unfold Z.sub. rewrite !inject_Z_plus, inject_Z_opp, inject_Z_plus. field. }
  rewrite E.
  apply Qabs_Qle_condition.
  assert (H1 : inject_Z (-1) <= inject_Z (c - (a + b))) by (rewrite <- Zle_Qle; lia).
  assert (H2 : inject_Z (c - (a + b)) <= inject_Z 1) by (rewrite <- Zle_Qle; lia).
  change (inject_Z (-1)) with (-1 # 1) in H1. change (inject_Z 1) with 1 in H2.
  split.
  - apply Qle_shift_div_l; [reflexivity | lra].
  - apply Qle_shift_div_r; [reflexivity | lra].
Qed.

(** Two numbers half a cent apart at most round to amounts one cent apart
    at most. *)
Lemma round2_close (x y : Q) :
  Qabs (x - y) <= 1 # 200 -> Qabs (round2 x - round2 y) <= 1 # 100.
Proof.
  intros H. apply Qabs_Qle_condition in H. destruct H as [Hlo Hhi].
  unfold round2.
  set (a := round_half_even (x * 100)).
  set (b := round_half_even (y * 100)).
  pose proof (round_half_even_bound (x * 100)) as Ha.
  pose proof (round_half_even_bound (y * 100)) as Hb.
  fold a in Ha. fold b in Hb.
  assert (Hz : (-1 <= a - b <= 1)%Z).
  { apply Z_abs_le_1_of_Q.
    unfold Z.sub. rewrite inject_Z_plus, inject_Z_opp. lra. }
  assert (E : inject_Z a / 100 - inject_Z b / 100 == inject_Z (a - b) / 100).
  { unfold Z.sub. rewrite inject_Z_plus, inject_Z_opp. field. }
  rewrite E.
  assert (H1 : inject_Z (-1) <= inject_Z (a - b)) by (rewrite <- Zle_Qle; lia).
  assert (H2 : inject_Z (a - b) <= inject_Z 1) by (rewrite <- Zle_Qle; lia).
  change (inject_Z (-1)) with (-1 # 1) in H1. change (inject_Z 1) with 1 in H2.
  apply Qabs_Qle_condition. split.
  - apply Qle_shift_div_l; [reflexivity | lra].
  - apply Qle_shift_div_r; [reflexivity | lra].
Qed.

(** ** Sums *)

Lemma fold_left_Qplus (l : list Q) (a : Q) :
  fold_left Qplus l a == a + Qsum l.
Proof.
  unfold Qsum. revert a.
  induction l as [| x l IH]; intros a; simpl.
  - lra.
  - rewrite IH. rewrite (IH (0 + x)). lra.
Qed.

Lemma Qsum_cons (x : Q) (l : list Q) : Qsum (x :: l) == x + Qsum l.
Proof.
  unfold Qsum at 1. simpl. rewrite fold_left_Qplus. lra.
Qed.

(** ** Substrings *)

Lemma starts_with_spec (pat s : str) :
  starts_with pat s = true <-> exists r, s = pat ++ r.
Proof.
  revert s. induction pat as [| p pat IH]; intros s; simpl.
  - split; [intros _; exists s; reflexivity | reflexivity].
  - destruct s as [| c s].
    + split; [discriminate | intros [r Hr]; discriminate].
    + rewrite andb_true_iff, N.eqb_eq, IH. split.
      * intros [-> [r ->]]. exists r. reflexivity.
      * intros [r Hr]. injection Hr as -> ->. split; [reflexivity | exists r; reflexivity].
Qed.

Lemma str_in_spec (pat s : str) :
  str_in pat s = true <-> exists l r, s = l ++ pat ++ r.
Proof.
  induction s as [| c s IH].
  - simpl. rewrite orb_false_r, starts_with_spec. split.
    + intros [r Hr]. exists [], r. exact Hr.
    + intros [l [r Hr]]. destruct l; [exists r; exact Hr | discriminate].
  - cbn [str_in]. rewrite orb_true_iff, starts_with_spec, IH. split.
    + intros [[r Hr] | [l [r Hr]]].
      * exists [], r. exact Hr.
      * exists (c :: l), r. simpl. rewrite Hr. reflexivity.
    + intros [l [r Hr]]. destruct l as [| c' l].
      * left. exists r. exact Hr.
      * right. simpl in Hr. injection Hr as _ Hr. exists l, r. exact Hr.
Qed.

(** A substring of a substring is a substring. *)
Lemma str_in_trans (a b s : str) :
  str_in a b = true -> str_in b s = true -> str_in a s = true.
Proof.
  rewrite !str_in_spec.
  intros [l1 [r1 ->]] [l2 [r2 ->]].
  exists (l2 ++ l1), (r1 ++ r2).
  rewrite <- !app_assoc. reflexivity.
Qed.

(** ** The parser *)

Section ParseFacts.

Variable U : PyUnicode.

Lemma parse_tasks_table (text : str) :
  Parsed.tasks (parse_transcript U text)
  = tasks_by_table (str_lower U text) (Parsed.area_m2 (parse_transcript U text)).
Proof.
  unfold parse_transcript, tasks_by_table, fires, trigger_table, append_if.
  cbn [Parsed.tasks Parsed.area_m2 filter existsb fst snd map].
  rewrite !orb_false_r.
  destruct (str_in (lit "tile") (str_lower U text));
    destruct (str_in (lit "paint") (str_lower U text));
    destruct (str_in (lit "repaint") (str_lower U text));
    destruct (str_in (lit "plumb") (str_lower U text));
    destruct (str_in (lit "toilet") (str_lower U text));
    destruct (str_in (lit "vanity") (str_lower U text));
    destruct (str_in (lit "remove old tile") (str_lower U text));
    destruct (str_in (lit "remove the old tiles") (str_lower U text));
    reflexivity.
Qed.

Lemma no_trigger_tasks (text : str) :
  no_trigger (str_lower U text) = true ->
  Parsed.tasks (parse_transcript U text) = [].
Proof.
  intros H. rewrite parse_tasks_table.
  unfold no_trigger, trigger_phrases, trigger_table in H.
  cbn [flat_map fst app forallb] in H.
  rewrite !andb_true_iff, !negb_true_iff in H.
  destruct H as (H1 & H2 & H3 & H4 & H5 & H6 & H7 & H8 & _).
  unfold tasks_by_table, fires, trigger_table.
  cbn [filter existsb fst snd map].
  rewrite H1, H2, H3, H4, H5, H6, H7, H8. reflexivity.
Qed.

(** The demolition phrases contain the tiling phrase. *)
Lemma demolition_fires_tiling (low : str) :
  str_in (lit "remove old tile") low || str_in (lit "remove the old tiles") low = true ->
  str_in (lit "tile") low = true.
Proof.
  intros H. apply orb_true_iff in H. destruct H as [H | H].
  - apply (str_in_trans _ (lit "remove old tile")); [reflexivity | exact H].
  - apply (str_in_trans _ (lit "remove the old tiles")); [reflexivity | exact H].
Qed.

Lemma parse_tasks_shape (text : str) (t : TaskIntent) :
  In t (Parsed.tasks (parse_transcript U text)) -> parser_task t.
Proof.
  rewrite parse_tasks_table.
  unfold tasks_by_table. rewrite in_map_iff.
  intros [tr [<- Htr]]. apply filter_In in Htr. destruct Htr as [Htr _].
  unfold trigger_table in Htr. simpl in Htr.
  destruct Htr as [<- | [<- | [<- | [<- | [<- | [<- | []]]]]]]; cbn [snd].
  - left. split; [reflexivity | eexists; reflexivity].
  - right. repeat split; reflexivity.
  - right. repeat split; reflexivity.
  - right. repeat split; reflexivity.
  - right. repeat split; reflexivity.
  - right. repeat split; reflexivity.
Qed.

End ParseFacts.

(** ** The loop *)

Section LoopFacts.

Variable P : Providers.

Lemma price_all_Forall2 (city : string) (tasks : list TaskIntent) (ls : list Locals.t) :
  price_all P city tasks = Ok ls ->
  Forall2 (fun task l => price_task P city task = Ok l) tasks ls.
Proof.
  revert ls. induction tasks as [| task rest IH]; intros ls H; simpl in H.
  - injection H as <-. constructor.
  - destruct (price_task P city task) as [l |] eqn:El; simpl in H; [| discriminate].
    destruct (price_all P city rest) as [ls' |]; simpl in H; [| discriminate].
    injection H as <-. constructor; [exact El | apply IH; reflexivity].
Qed.

(** The loop is the pricing of every task followed by the accumulation. *)
Lemma loop_price_all (city : string) (hourly : Q) (tasks : list TaskIntent) (acc : Acc.t) :
  loop P city hourly acc tasks
  = (ls <- price_all P city tasks ;; Ok (accumulate_all hourly acc (combine tasks ls))).
Proof.
  revert acc. induction tasks as [| task rest IH]; intros acc; simpl.
  - reflexivity.
  - unfold loop_body.
    destruct (price_task P city task) as [l |]; simpl; [| reflexivity].
    rewrite IH.
    destruct (price_all P city rest) as [ls |]; reflexivity.
Qed.

Lemma loop_Ok (city : string) (hourly : Q) (tasks : list TaskIntent) (acc acc' : Acc.t) :
  loop P city hourly acc tasks = Ok acc' ->
  exists ls, price_all P city tasks = Ok ls
             /\ acc' = accumulate_all hourly acc (combine tasks ls).
Proof.
  rewrite loop_price_all.
  destruct (price_all P city tasks) as [ls |]; simpl; [| discriminate].
  intros H. injection H as <-. exists ls. split; reflexivity.
Qed.

Lemma accumulate_all_tasks_out (hourly : Q) (tl : list (TaskIntent * Locals.t)) (acc : Acc.t) :
  Acc.tasks_out (accumulate_all hourly acc tl)
  = Acc.tasks_out acc ++ map (fun x => task_record hourly (fst x) (snd x)) tl.
Proof.
  unfold accumulate_all. revert acc.
  induction tl as [| x tl IH]; intros acc; simpl.
  - rewrite app_nil_r. reflexivity.
  - rewrite IH. simpl. rewrite <- app_assoc. reflexivity.
Qed.

(** Each accumulator is its start plus the left-to-right sum of the
    full-precision values of the iterations. *)
Lemma accumulate_all_sums (hourly : Q) (tl : list (TaskIntent * Locals.t)) (acc : Acc.t) :
  let ls := map snd tl in
  let a := accumulate_all hourly acc tl in
  Acc.total_labor_cost a == Acc.total_labor_cost acc + Qsum (map Locals.labor_cost ls)
  /\ Acc.total_material_cost a
     == Acc.total_material_cost acc + Qsum (map Locals.mat_cost ls)
  /\ Acc.total_vat a == Acc.total_vat acc + Qsum (map Locals.vat_amount ls)
  /\ Acc.total_price a == Acc.total_price acc + Qsum (map Locals.total_task_price ls)
  /\ Acc.total_hours a == Acc.total_hours acc + Qsum (map Locals.hours ls)
  /\ Acc.weighted_conf_sum a
     == Acc.weighted_conf_sum acc
        + Qsum (map (fun l => Locals.confidence l * Locals.total_task_price l) ls)
  /\ Acc.weighted_cost_sum a
     == Acc.weighted_cost_sum acc + Qsum (map Locals.total_task_price ls).
Proof.
  unfold accumulate_all. revert acc.
  induction tl as [| x tl IH]; intros acc; cbn zeta.
  - simpl. unfold Qsum. simpl. repeat split; lra.
  - cbn [fold_left map].
    specialize (IH (accumulate hourly acc (fst x) (snd x))). cbn zeta in IH.
    destruct IH as (H1 & H2 & H3 & H4 & H5 & H6 & H7).
    rewrite H1, H2, H3, H4, H5, H6, H7. rewrite !Qsum_cons. simpl.
    repeat split; lra.
Qed.

End LoopFacts.

(** ** A run of [build_quote] *)

(** Case analysis along the [if]/[elif] chain of [task_materials] and the
    outcomes of its lookups; the equations of the lookups are named
    [E], [E0]. *)
Ltac materials_cases :=
  unfold task_materials, fixture;
  repeat match goal with
  | |- (if ?b then _ else _) = _ -> _ => destruct b
  | |- bind ?r _ = _ -> _ => let E := fresh "E" in destruct r eqn:E; cbn [bind]
  end.


Section RunFacts.

Variable P : Providers.
Variable U : PyUnicode.

(** A quote is produced exactly when every task is priced; it is then built
    from the accumulation of the priced tasks. *)
Lemma build_quote_Ok (uuid : string) (text : str) (q : Quote.t) :
  build_quote P U uuid text = Ok q ->
  let parsed := parse_transcript U text in
  let city := city_or_generic (Parsed.city parsed) in
  exists ls,
    price_all P city (Parsed.tasks parsed) = Ok ls
    /\ q = out_json uuid text city (Parsed.zone parsed)
             (accumulate_all (hourly_rate P city) acc0 (combine (Parsed.tasks parsed) ls)).
Proof.
  unfold build_quote. cbn zeta. intros H.
  destruct (loop P _ _ acc0 _) as [acc |] eqn:El; simpl in H; [| discriminate].
  apply loop_Ok in El. destruct El as [ls [Hls ->]].
  injection H as <-. exists ls. split; [exact Hls | reflexivity].
Qed.

Lemma price_all_length (city : string) (tasks : list TaskIntent) (ls : list Locals.t) :
  price_all P city tasks = Ok ls -> List.length ls = List.length tasks.
Proof.
  intros H. apply price_all_Forall2 in H.
  induction H; simpl; congruence.
Qed.

Lemma price_all_In (city : string) (tasks : list TaskIntent) (ls : list Locals.t)
  (x : TaskIntent * Locals.t) :
  price_all P city tasks = Ok ls ->
  In x (combine tasks ls) ->
  In (fst x) tasks /\ In (snd x) ls /\ price_task P city (fst x) = Ok (snd x).
Proof.
  intros H. apply price_all_Forall2 in H.
  induction H as [| task l tasks ls Hl _ IH]; simpl; [tauto |].
  intros [<- | Hin].
  - simpl. auto.
  - destruct (IH Hin) as (H1 & H2 & H3). auto.
Qed.

Lemma price_all_snd (city : string) (tasks : list TaskIntent) (ls : list Locals.t) :
  price_all P city tasks = Ok ls -> map snd (combine tasks ls) = ls.
Proof.
  intros H. apply price_all_Forall2 in H.
  induction H; simpl; congruence.
Qed.

(** The task records of a produced quote, one per priced task. *)
Lemma quote_tasks_out_json (uuid : string) (text : str) (city zone_name : string)
  (hourly : Q) (tl : list (TaskIntent * Locals.t)) :
  quote_tasks (out_json uuid text city zone_name (accumulate_all hourly acc0 tl))
  = map (fun x => task_record hourly (fst x) (snd x)) tl.
Proof.
  unfold quote_tasks, out_json. cbn [Quote.zones flat_map Zone.tasks].
  rewrite app_nil_r, accumulate_all_tasks_out. reflexivity.
Qed.

(** Every task record of a produced quote is the record of a parsed task
    with the locals of its iteration. *)
Lemma quote_task_origin (uuid : string) (text : str) (q : Quote.t) (t : Task.t) :
  build_quote P U uuid text = Ok q ->
  In t (quote_tasks q) ->
  let parsed := parse_transcript U text in
  let city := city_or_generic (Parsed.city parsed) in
  exists task l,
    In task (Parsed.tasks parsed)
    /\ price_task P city task = Ok l
    /\ t = task_record (hourly_rate P city) task l.
Proof.
  intros H Hin. cbn zeta.
  apply build_quote_Ok in H. cbn zeta in H. destruct H as [ls [Hls ->]].
  rewrite quote_tasks_out_json in Hin. apply in_map_iff in Hin.
  destruct Hin as [x [<- Hx]].
  destruct (price_all_In _ _ _ _ Hls Hx) as (H1 & _ & H3).
  exists (fst x), (snd x). auto.
Qed.

(** The material totals of a priced task add up to its [mat_cost]. *)
Lemma task_materials_total (task : TaskIntent) (city : string)
  (ms : list Material.t) (c : Q) :
  task_materials P task city = Ok (ms, c) ->
  Qsum (map Material.total ms) == c.
Proof.
  materials_cases;
  intros H; try discriminate; injection H as <- <-; unfold Qsum; simpl; lra.
Qed.

Lemma price_task_Ok (city : string) (task : TaskIntent) (l : Locals.t) :
  price_task P city task = Ok l ->
  exists ms c,
    task_materials P task city = Ok (ms, c)
    /\ Locals.hours l = estimate_hours P (task_name task) (get_area task)
    /\ Locals.labor_cost l = compute_labor_cost P (Locals.hours l) city
    /\ Locals.materials l = ms
    /\ Locals.mat_cost l = c
    /\ Locals.base_price l = Locals.labor_cost l + c
    /\ Locals.margin_pct l = 12 # 100
    /\ Locals.price_ex_vat l
       = Locals.base_price l + Locals.base_price l * Locals.margin_pct l
    /\ Locals.vat_rate l = get_vat_rate P (task_name task) city
    /\ Locals.vat_amount l = Locals.price_ex_vat l * Locals.vat_rate l
    /\ Locals.total_task_price l = Locals.price_ex_vat l + Locals.vat_amount l
    /\ Locals.confidence l = compute_confidence task city.
Proof.
  unfold price_task.
  destruct (task_materials P task city) as [[ms c] |]; simpl; [| discriminate].
  intros H. injection H as <-. exists ms, c. simpl.
  repeat split; reflexivity.
Qed.

End RunFacts.

(** ** The engine on the test suite's data *)

(** [table_providers] meets the assertions of [tests/test_logic.py]. *)
Example table_providers_meet_the_tests :
  get_material_cost table_providers "tiles_ceramic_m2" (VNum 4) "Marseille" = Ok (25 * 4 * 1)
  /\ hourly_rate table_providers "Marseille" == 40
  /\ hourly_rate table_providers "Marseille" < hourly_rate table_providers "Paris"
  /\ estimate_hours table_providers "Floor Tiling" (VNum 4) == 375 # 100
  /\ compute_labor_cost table_providers 2 "Marseille" == 80
  /\ get_vat_rate table_providers "random_task" "Marseille" == 20 # 100.
Proof.
  repeat split; vm_compute; reflexivity.
Qed.

(** The end-to-end example of section 8. *)
Example sample_quote :
  exists q,
    build_quote table_providers ascii_runtime uuid_a sample_transcript = Ok q
    /\ map Zone.zone_name (Quote.zones q) = ["bathroom"%string]
    /\ map Task.task_name (quote_tasks q)
       = ["Floor Tiling (ceramic)"; "Repaint Walls"; "Shower Plumbing (redo)";
          "Replace Toilet"; "Install Vanity"; "Demolition & Disposal"]%string
    /\ Quote.location q = "Marseille"%string
    /\ Summary.confidence_score (Quote.summary q) == 1.
Proof.
  eexists. split; [vm_compute; reflexivity |].
  repeat split; vm_compute; reflexivity.
Qed.

(** ** Properties of the parser *)

(** C4.  [parse_transcript] is a total function of the text.  Its task list
    is the trigger table read in its fixed order: one task for each trigger
    with a phrase in the lowercased text, none merged or dropped; an absent
    area or city is [None], an absent zone word gives ["general"], an absent
    budget word gives [False], and no trigger gives the empty list. *)
Theorem parse_transcript_follows_trigger_table (U : PyUnicode) (text : str) :
  let p := parse_transcript U text in
  let low := str_lower U text in
  Parsed.tasks p = tasks_by_table low (Parsed.area_m2 p)
  /\ List.length (Parsed.tasks p) = List.length (filter (fires low) trigger_table)
  /\ (re_search_area U low = None ->
      Parsed.area_m2 p = VNone
      /\ forall t, In t (Parsed.tasks p) -> area_m2 t = None \/ area_m2 t = Some VNone)
  /\ (re_search_city low = None -> Parsed.city p = None)
  /\ (str_in (lit "bathroom") low = false -> Parsed.zone p = "general"%string)
  /\ (str_in (lit "budget") low = false -> Parsed.budget_flag p = false)
  /\ (no_trigger low = true -> Parsed.tasks p = []).
Proof.
  cbn zeta. split; [apply parse_tasks_table |].
  split; [rewrite parse_tasks_table; unfold tasks_by_table; apply length_map |].
  split.
  { intros Ha.
    assert (E : Parsed.area_m2 (parse_transcript U text) = VNone).
    { unfold parse_transcript. cbn [Parsed.area_m2]. rewrite Ha. reflexivity. }
    split; [exact E |].
    intros t Ht. rewrite parse_tasks_table, E in Ht.
    unfold tasks_by_table in Ht. apply in_map_iff in Ht.
    destruct Ht as [tr [<- Htr]]. apply filter_In in Htr. destruct Htr as [Htr _].
    unfold trigger_table in Htr. simpl in Htr.
    destruct Htr as [<- | [<- | [<- | [<- | [<- | [<- | []]]]]]]; cbn; auto. }
  split.
  { intros Hc. unfold parse_transcript. cbn [Parsed.city]. rewrite Hc. reflexivity. }
  split.
  { intros Hz. unfold parse_transcript. cbn [Parsed.zone]. rewrite Hz. reflexivity. }
  split.
  { intros Hb. unfold parse_transcript. cbn [Parsed.budget_flag]. exact Hb. }
  apply no_trigger_tasks.
Qed.

(** C9.  Whenever the parsed task list holds "Demolition & Disposal" it
    starts with "Floor Tiling (ceramic)", and the demolition task comes
    after it: both demolition phrases contain "tile". *)
Theorem demolition_comes_after_tiling (U : PyUnicode) (text : str) :
  In "Demolition & Disposal"%string (map task_name (Parsed.tasks (parse_transcript U text))) ->
  exists rest,
    map task_name (Parsed.tasks (parse_transcript U text))
    = "Floor Tiling (ceramic)"%string :: rest
    /\ In "Demolition & Disposal"%string rest.
Proof.
  pose proof (demolition_fires_tiling (str_lower U text)) as Hd.
  unfold parse_transcript, append_if. cbn [Parsed.tasks].
  set (b1 := str_in (lit "tile") (str_lower U text)) in *.
  set (b2 := str_in (lit "paint") (str_lower U text) || str_in (lit "repaint") (str_lower U text)).
  set (b3 := str_in (lit "plumb") (str_lower U text)).
  set (b4 := str_in (lit "toilet") (str_lower U text)).
  set (b5 := str_in (lit "vanity") (str_lower U text)).
  set (b6 := str_in (lit "remove old tile") (str_lower U text)
             || str_in (lit "remove the old tiles") (str_lower U text)) in *.
  destruct b6.
  - rewrite (Hd eq_refl).
    destruct b2, b3, b4, b5; intros _; eexists; (split; [reflexivity | simpl; tauto]).
  - destruct b1, b2, b3, b4, b5; simpl; intros H;
      repeat (destruct H as [H | H]; [discriminate |]); destruct H.
Qed.

Lemma demolition_comes_after_tiling_witness :
  exists rest,
    map task_name (Parsed.tasks (parse_transcript ascii_runtime sample_transcript))
    = "Floor Tiling (ceramic)"%string :: rest
    /\ In "Demolition & Disposal"%string rest.
Proof.
  apply (demolition_comes_after_tiling ascii_runtime sample_transcript).
  vm_compute. tauto.
Defined.

(** ** Properties of the quote *)

(** C8.  A transcript without any trigger phrase yields a quote with no
    task, a total price of 0.0, a confidence score of 0.0 and the
    suspicious flag set. *)
Theorem no_trigger_empty_quote (P : Providers) (U : PyUnicode) (uuid : string) (text : str) :
  no_trigger (str_lower U text) = true ->
  exists q,
    build_quote P U uuid text = Ok q
    /\ quote_tasks q = []
    /\ Summary.total_price (Quote.summary q) == 0
    /\ Summary.confidence_score (Quote.summary q) == 0
    /\ Summary.suspicious_input (Quote.summary q) = true.
Proof.
  intros H. unfold build_quote. cbn zeta.
  rewrite (no_trigger_tasks U text H). simpl.
  eexists. split; [reflexivity |].
  split; [reflexivity |].
  repeat split; vm_compute; reflexivity.
Qed.

Lemma no_trigger_empty_quote_witness :
  exists q,
    build_quote table_providers ascii_runtime uuid_a (lit "Hello, how much for a new kitchen?") = Ok q
    /\ quote_tasks q = []
    /\ Summary.total_price (Quote.summary q) == 0
    /\ Summary.confidence_score (Quote.summary q) == 0
    /\ Summary.suspicious_input (Quote.summary q) = true.
Proof.
  apply (no_trigger_empty_quote table_providers ascii_runtime uuid_a
           (lit "Hello, how much for a new kitchen?")).
  vm_compute. reflexivity.
Defined.

(** C2.  In every task record of a produced quote, [price_ex_vat] is
    within one cent of [round(base_cost * (1 + margin_pct), 2)], for
    [base_cost] the labour cost plus the material totals, and [total_price]
    is within one cent of [round(price_ex_vat + vat_amount, 2)]: one cent
    is the rounding tolerance.  The code rounds [base + base * margin_pct]
    and the unrounded sum of price and VAT, which need not round to the
    same cent as the expressions of the claim. *)
Theorem task_record_price_identities (P : Providers) (U : PyUnicode) (uuid : string)
  (text : str) (q : Quote.t) (t : Task.t) :
  build_quote P U uuid text = Ok q ->
  In t (quote_tasks q) ->
  Qabs (Task.price_ex_vat t - round2 (base_cost t * (1 + Task.margin_pct t))) <= 1 # 100
  /\ Qabs (Task.total_price t - round2 (Task.price_ex_vat t + Task.vat_amount t)) <= 1 # 100.
Proof.
  intros Hq Hin.
  destruct (quote_task_origin P U uuid text q t Hq Hin) as (task & l & _ & Hl & ->).
  destruct (price_task_Ok P _ _ _ Hl)
    as (ms & c & Hm & _ & _ & Hms & Hc & Hb & Hg & Hp & _ & Hv & Ht & _).
  apply task_materials_total in Hm.
  unfold base_cost, task_record.
  cbn [Task.price_ex_vat Task.margin_pct Task.labor Task.materials Task.total_price
       Task.vat_amount Labor.cost].
  split.
  - apply round2_close.
    assert (E : Locals.price_ex_vat l
                - (Locals.labor_cost l + Qsum (map Material.total (Locals.materials l)))
                  * (1 + Locals.margin_pct l) == 0).
    { rewrite Hp, Hb, Hms, Hm. ring. }
    rewrite E. discriminate.
  - rewrite Ht. apply round2_sum_tolerance.
Qed.

Lemma task_record_price_identities_witness :
  exists q t,
    build_quote table_providers ascii_runtime uuid_a sample_transcript = Ok q
    /\ nth_error (quote_tasks q) 3 = Some t
    /\ Qabs (Task.price_ex_vat t - round2 (base_cost t * (1 + Task.margin_pct t))) <= 1 # 100
    /\ Qabs (Task.total_price t - round2 (Task.price_ex_vat t + Task.vat_amount t)) <= 1 # 100.
Proof.
  destruct (build_quote table_providers ascii_runtime uuid_a sample_transcript)
    as [q |] eqn:Hq; [| vm_compute in Hq; discriminate].
  destruct (nth_error (quote_tasks q) 3) as [t |] eqn:Ht.
  - exists q, t. split; [reflexivity |]. split; [exact Ht |].
    apply (task_record_price_identities table_providers ascii_runtime uuid_a
             sample_transcript q t Hq).
    apply (nth_error_In _ _ Ht).
  - exfalso. vm_compute in Hq. injection Hq as <-. vm_compute in Ht. discriminate.
Defined.

#[local] Set Warnings "-inexact-float".

(** On doubles the two ways to add the margin part by a cent already at a
    base price of 0.15625: [base + base * 0.12] is just below 0.175 and
    rounds to 0.17, [base * (1 + 0.12)] is just above and rounds to 0.18.
    The numbers are the exact values of the doubles. *)
Remark margin_products_round_apart_on_doubles :
  let base := 0.15625%float in
  let margin_pct := 0.12%float in
  round2 (Q_of_float (base + base * margin_pct)%float) == 17 # 100
  /\ round2 (Q_of_float (base * (1 + margin_pct))%float) == 18 # 100.
Proof.
  split; vm_compute; reflexivity.
Qed.

(** ** The ceramic-tile line *)

(** The tile branch of the materials dispatch tests ["Tile" in tname]; the
    tiling task is named "Floor Tiling (ceramic)", which holds "Tili" and
    not "Tile", so the branch is never taken for it: the task is priced
    without any material. *)
Lemma tiling_task_materials (P : Providers) (task : TaskIntent) (city : string) :
  task_name task = "Floor Tiling (ceramic)"%string ->
  task_materials P task city = Ok ([], 0).
Proof.
  intros H. unfold task_materials. rewrite H. reflexivity.
Qed.

(** Were the branch taken for a dict that binds ["area_m2"] to [None], as
    the parser's tiling dict does without an area, [task.get("area_m2", 4)]
    would be [None] and the division by it would raise. *)
Lemma tile_branch_none_area_raises (P : Providers) (tname city : string) :
  name_has "Tile" tname = true ->
  raises (task_materials P {| task_name := tname; area_m2 := Some VNone |} city).
Proof.
  intros H. unfold task_materials. cbn [task_name]. rewrite H.
  unfold get_area_default. cbn [area_m2].
  destruct (get_material_cost P "tiles_ceramic_m2" VNone city) as [cost | e]; simpl.
  - exists TypeError. reflexivity.
  - exists e. reflexivity.
Qed.

(** The fallback 4 is what the branch uses for a dict without the key. *)
Lemma tile_branch_missing_key_uses_4 (P : Providers) (tname city : string) (cost : Q) :
  name_has "Tile" tname = true ->
  get_material_cost P "tiles_ceramic_m2" (VNum 4) city = Ok cost ->
  task_materials P {| task_name := tname; area_m2 := None |} city
  = Ok ([{| Material.name := "tiles_ceramic_m2"; Material.qty := VNum 4;
            Material.unit_cost := cost / 4; Material.total := cost |}], 0 + cost).
Proof.
  intros H Hc. unfold task_materials. cbn [task_name]. rewrite H.
  unfold get_area_default. cbn [area_m2]. rewrite Hc. reflexivity.
Qed.

(** C1.  What the code does for a tiling task without an area: the quote
    is led by the tiling record, its area is [None] and its material list is
    empty, so there is no ceramic-tile line and no quantity, neither the
    area nor the fallback 4. *)
Theorem tiling_without_area_has_no_tile_line (P : Providers) (U : PyUnicode)
  (uuid : string) (text : str) (q : Quote.t) :
  str_in (lit "tile") (str_lower U text) = true ->
  re_search_area U (str_lower U text) = None ->
  build_quote P U uuid text = Ok q ->
  exists t rest,
    quote_tasks q = t :: rest
    /\ Task.task_name t = "Floor Tiling (ceramic)"%string
    /\ Task.area_m2 t = VNone
    /\ Task.materials t = [].
Proof.
  intros Ht Ha Hq.
  apply build_quote_Ok in Hq. cbn zeta in Hq. destruct Hq as [ls [Hls ->]].
  rewrite quote_tasks_out_json.
  assert (E : exists rest,
             Parsed.tasks (parse_transcript U text)
             = {| task_name := "Floor Tiling (ceramic)"; area_m2 := Some VNone |} :: rest).
  { unfold parse_transcript, append_if. cbn [Parsed.tasks]. rewrite Ht, Ha.
    repeat match goal with |- context [if ?b then _ else _] => destruct b end;
      eexists; reflexivity. }
  destruct E as [rest E]. rewrite E in *.
  cbn [price_all] in Hls.
  destruct (price_task P _ _) as [l |] eqn:El; cbn [bind] in Hls; [| discriminate].
  destruct (price_all P _ rest) as [ls' |]; cbn [bind] in Hls; [| discriminate].
  injection Hls as <-.
  destruct (price_task_Ok P _ _ _ El) as (ms & c & Hm & _ & _ & Hms & _).
  rewrite tiling_task_materials in Hm by reflexivity. injection Hm as <- <-.
  simpl. eexists. eexists. split; [reflexivity |].
  simpl. rewrite Hms. repeat split; reflexivity.
Qed.

Lemma tiling_without_area_has_no_tile_line_witness :
  exists q t rest,
    build_quote table_providers ascii_runtime uuid_a (lit "Lay new ceramic floor tiles.") = Ok q
    /\ quote_tasks q = t :: rest
    /\ Task.task_name t = "Floor Tiling (ceramic)"%string
    /\ Task.area_m2 t = VNone
    /\ Task.materials t = [].
Proof.
  destruct (build_quote table_providers ascii_runtime uuid_a (lit "Lay new ceramic floor tiles."))
    as [q |] eqn:Hq; [| vm_compute in Hq; discriminate].
  destruct (tiling_without_area_has_no_tile_line table_providers ascii_runtime uuid_a
              (lit "Lay new ceramic floor tiles.") q) as (t & rest & H);
    [vm_compute; reflexivity | vm_compute; reflexivity | exact Hq |].
  exists q, t, rest. split; [reflexivity | exact H].
Defined.

(** ** Totals and confidence *)

(** C5.  The global confidence of a produced quote is the weighted average
    [sum(confidence_i * total_i) / sum(total_i)] over the full-precision
    confidences and total prices of its tasks, and 0.0 when that sum of
    totals is zero, as it is without tasks; the summary shows it rounded. *)
Theorem global_confidence_is_weighted_average (P : Providers) (U : PyUnicode)
  (uuid : string) (text : str) (q : Quote.t) :
  build_quote P U uuid text = Ok q ->
  let parsed := parse_transcript U text in
  let city := city_or_generic (Parsed.city parsed) in
  exists ls acc,
    price_all P city (Parsed.tasks parsed) = Ok ls
    /\ loop P city (hourly_rate P city) acc0 (Parsed.tasks parsed) = Ok acc
    /\ let num := Qsum (map (fun l => Locals.confidence l * Locals.total_task_price l) ls) in
       let den := Qsum (map Locals.total_task_price ls) in
       (~ den == 0 -> global_conf acc == num / den)
       /\ (den == 0 -> global_conf acc == 0)
       /\ (ls = [] -> den == 0)
       /\ (Forall (fun l => Locals.total_task_price l == 0) ls -> den == 0)
       /\ Summary.confidence_score (Quote.summary q) = round2 (global_conf acc).
Proof.
  intros Hq. cbn zeta.
  apply build_quote_Ok in Hq. cbn zeta in Hq. destruct Hq as [ls [Hls ->]].
  set (city := city_or_generic (Parsed.city (parse_transcript U text))) in *.
  set (tasks := Parsed.tasks (parse_transcript U text)) in *.
  exists ls, (accumulate_all (hourly_rate P city) acc0 (combine tasks ls)).
  split; [exact Hls |].
  split; [rewrite loop_price_all, Hls; reflexivity |].
  pose proof (accumulate_all_sums (hourly_rate P city) (combine tasks ls) acc0) as Hs.
  cbn zeta in Hs. rewrite (price_all_snd P _ _ _ Hls) in Hs.
  destruct Hs as (_ & _ & _ & _ & _ & Hn & Hd). simpl in Hn, Hd.
  unfold global_conf, truthy.
  set (a := accumulate_all (hourly_rate P city) acc0 (combine tasks ls)) in *.
  repeat split.
  - intros Hne. destruct (Qeq_bool (Acc.weighted_cost_sum a) 0) eqn:Eb; simpl.
    + apply Qeq_bool_iff in Eb. exfalso. apply Hne. rewrite <- Eb, Hd. ring.
    + rewrite Hn, Hd. rewrite !Qplus_0_l. reflexivity.
  - intros He. destruct (Qeq_bool (Acc.weighted_cost_sum a) 0) eqn:Eb; simpl.
    + reflexivity.
    + apply Qeq_bool_neq in Eb. exfalso. apply Eb. rewrite Hd, He. ring.
  - intros ->. reflexivity.
  - intros Hz. clear - Hz. induction Hz as [| l ls Hl _ IH]; [reflexivity |].
    cbn [map]. rewrite Qsum_cons, Hl, IH. ring.
Qed.

Lemma global_confidence_is_weighted_average_witness :
  exists q ls acc,
    build_quote table_providers ascii_runtime uuid_a sample_transcript = Ok q
    /\ price_all table_providers "Marseille" (Parsed.tasks (parse_transcript ascii_runtime sample_transcript)) = Ok ls
    /\ loop table_providers "Marseille" 40 acc0
         (Parsed.tasks (parse_transcript ascii_runtime sample_transcript)) = Ok acc
    /\ global_conf acc
       == Qsum (map (fun l => Locals.confidence l * Locals.total_task_price l) ls)
          / Qsum (map Locals.total_task_price ls)
    /\ Summary.confidence_score (Quote.summary q) = round2 (global_conf acc).
Proof.
  destruct (build_quote table_providers ascii_runtime uuid_a sample_transcript)
    as [q |] eqn:Hq; [| vm_compute in Hq; discriminate].
  destruct (global_confidence_is_weighted_average table_providers ascii_runtime uuid_a
              sample_transcript q Hq) as (ls & acc & Hls & Hacc & Hne & _ & _ & _ & Hs).
  exists q, ls, acc.
  split; [reflexivity |].
  split; [exact Hls |].
  split; [exact Hacc |].
  split; [| exact Hs].
  apply Hne.
  vm_compute in Hls. injection Hls as <-. vm_compute. discriminate.
Defined.

Lemma Qsum_round2_bound (l : list Q) :
  Qabs (Qsum (map round2 l) - Qsum l) <= inject_Z (Z.of_nat (List.length l)) * (1 # 200).
Proof.
  induction l as [| x l IH].
  - vm_compute. discriminate.
  - cbn [map List.length]. rewrite !Qsum_cons.
    rewrite Nat2Z.inj_succ. unfold Z.succ. rewrite inject_Z_plus.
    change (inject_Z 1) with 1.
    pose proof (round2_bound x) as Hx.
    apply Qabs_Qle_condition in Hx. apply Qabs_Qle_condition in IH.
    apply Qabs_Qle_condition. split; lra.
Qed.

Lemma parse_tasks_at_most_six (U : PyUnicode) (text : str) :
  (List.length (Parsed.tasks (parse_transcript U text)) <= 6)%nat.
Proof.
  rewrite parse_tasks_table. unfold tasks_by_table. rewrite length_map.
  apply (filter_length_le (fires (str_lower U text)) trigger_table).
Qed.

(** C6, as the code has it.  Every summary total is the rounding, once, of
    the left-to-right sum of the full-precision values of the tasks.  The
    summary's total price and the sum of the rounded task totals differ by
    at most half a cent per task and half a cent more, 0.035 at most with the
    six triggers: an absolute tolerance, which is within one percent of the
    sum once the sum reaches 3.50. *)
Theorem summary_totals_round_once (P : Providers) (U : PyUnicode)
  (uuid : string) (text : str) (q : Quote.t) :
  build_quote P U uuid text = Ok q ->
  let parsed := parse_transcript U text in
  let city := city_or_generic (Parsed.city parsed) in
  let s := Quote.summary q in
  let fields := Qsum (map Task.total_price (quote_tasks q)) in
  exists ls,
    price_all P city (Parsed.tasks parsed) = Ok ls
    /\ Summary.total_labor_cost s = round2 (Qsum (map Locals.labor_cost ls))
    /\ Summary.total_material_cost s = round2 (Qsum (map Locals.mat_cost ls))
    /\ Summary.total_vat s = round2 (Qsum (map Locals.vat_amount ls))
    /\ Summary.total_price s = round2 (Qsum (map Locals.total_task_price ls))
    /\ Summary.estimated_duration_hours s = round2 (Qsum (map Locals.hours ls))
    /\ map Task.total_price (quote_tasks q)
       = map (fun l => round2 (Locals.total_task_price l)) ls
    /\ Qabs (Summary.total_price s - fields)
       <= inject_Z (Z.of_nat (List.length ls) + 1) * (1 # 200)
    /\ Qabs (Summary.total_price s - fields) <= 7 # 200
    /\ (7 # 2 <= fields -> within_rel (1 # 100) (Summary.total_price s) fields).
Proof.
  intros Hq. cbn zeta.
  apply build_quote_Ok in Hq. cbn zeta in Hq. destruct Hq as [ls [Hls ->]].
  set (city := city_or_generic (Parsed.city (parse_transcript U text))) in *.
  set (tasks := Parsed.tasks (parse_transcript U text)) in *.
  exists ls. split; [exact Hls |].
  pose proof (accumulate_all_sums (hourly_rate P city) (combine tasks ls) acc0) as Hs.
  cbn zeta in Hs. rewrite (price_all_snd P _ _ _ Hls) in Hs.
  destruct Hs as (H1 & H2 & H3 & H4 & H5 & _ & _). simpl in H1, H2, H3, H4, H5.
  rewrite quote_tasks_out_json.
  unfold out_json. cbn [Quote.summary Summary.total_labor_cost Summary.total_material_cost
    Summary.total_vat Summary.total_price Summary.estimated_duration_hours].
  set (a := accumulate_all (hourly_rate P city) acc0 (combine tasks ls)) in *.
  assert (Hf : map Task.total_price
                 (map (fun x => task_record (hourly_rate P city) (fst x) (snd x))
                    (combine tasks ls))
               = map (fun l => round2 (Locals.total_task_price l)) ls).
  { rewrite map_map. cbn [task_record Task.total_price].
    rewrite <- (price_all_snd P _ _ _ Hls) at 2. rewrite map_map. reflexivity. }
  rewrite Hf.
  assert (Hb : Qabs (round2 (Acc.total_price a)
                     - Qsum (map (fun l => round2 (Locals.total_task_price l)) ls))
               <= inject_Z (Z.of_nat (List.length ls) + 1) * (1 # 200)).
  { rewrite <- (map_map Locals.total_task_price round2).
    pose proof (Qsum_round2_bound (map Locals.total_task_price ls)) as Hr.
    rewrite length_map in Hr.
    pose proof (round2_bound (Acc.total_price a)) as Ha.
    apply Qabs_Qle_condition in Hr. apply Qabs_Qle_condition in Ha.
    rewrite inject_Z_plus. change (inject_Z 1) with 1.
    apply Qabs_Qle_condition. split; lra. }
  assert (Hn : inject_Z (Z.of_nat (List.length ls) + 1) <= 7).
  { pose proof (parse_tasks_at_most_six U text) as H6. fold tasks in H6.
    rewrite <- (price_all_length P _ _ _ Hls) in H6.
    change 7 with (inject_Z 7). rewrite <- Zle_Qle. lia. }
  assert (Hc : Qabs (round2 (Acc.total_price a)
                     - Qsum (map (fun l => round2 (Locals.total_task_price l)) ls))
               <= 7 # 200).
  { eapply Qle_trans; [exact Hb |]. lra. }
  split; [apply round2_comp; rewrite H1; ring |].
  split; [apply round2_comp; rewrite H2; ring |].
  split; [apply round2_comp; rewrite H3; ring |].
  split; [apply round2_comp; rewrite H4; ring |].
  split; [apply round2_comp; rewrite H5; ring |].
  split; [reflexivity |].
  split; [exact Hb |].
  split; [exact Hc |].
  intros Hbig. right.
  rewrite (Qabs_pos (Qsum _)) by lra.
  eapply Qle_trans; [exact Hc |]. lra.
Qed.

Lemma summary_totals_round_once_witness :
  exists q,
    build_quote table_providers ascii_runtime uuid_a sample_transcript = Ok q
    /\ Summary.total_price (Quote.summary q)
       = round2 (Qsum (map Task.total_price (quote_tasks q)))
    /\ Qabs (Summary.total_price (Quote.summary q)
             - Qsum (map Task.total_price (quote_tasks q))) <= 7 # 200.
Proof.
  destruct (build_quote table_providers ascii_runtime uuid_a sample_transcript)
    as [q |] eqn:Hq; [| vm_compute in Hq; discriminate].
  destruct (summary_totals_round_once table_providers ascii_runtime uuid_a
              sample_transcript q Hq) as (ls & _ & _ & _ & _ & _ & _ & _ & _ & Hb & _).
  exists q. split; [reflexivity |]. split; [| exact Hb].
  vm_compute in Hq. injection Hq as <-. vm_compute. reflexivity.
Defined.

(** C6, as the claim has it: with materials priced at a third of a cent the
    two task totals round to 0.00 and the summary's total to 0.01, which no
    relative tolerance below one hundred percent covers. *)
Lemma summary_total_outside_relative_tolerance :
  exists q,
    build_quote (flat_providers (1 # 280)) ascii_runtime uuid_a (lit "toilet and vanity") = Ok q
    /\ Summary.total_price (Quote.summary q) == 1 # 100
    /\ Qsum (map Task.total_price (quote_tasks q)) == 0
    /\ ~ within_rel (1 # 100) (Summary.total_price (Quote.summary q))
           (Qsum (map Task.total_price (quote_tasks q))).
Proof.
  destruct (build_quote (flat_providers (1 # 280)) ascii_runtime uuid_a (lit "toilet and vanity"))
    as [q |] eqn:Hq; [| vm_compute in Hq; discriminate].
  exists q. split; [reflexivity |].
  vm_compute in Hq. injection Hq as <-.
  split; [vm_compute; reflexivity |].
  split; [vm_compute; reflexivity |].
  unfold within_rel. intros [H | H]; vm_compute in H; apply H; reflexivity.
Qed.

(** ** Confidence of the parsed tasks *)

Lemma city_or_generic_nonempty (c : option string) :
  nonempty (city_or_generic c) = true.
Proof.
  destruct c as [s |]; simpl; [| reflexivity].
  destruct (nonempty s) eqn:E; [exact E | reflexivity].
Qed.

(** With a city at hand a parsed task scores 1.0, or 0.8 when it is the
    tiling task and no usable area was found. *)
Lemma parser_task_confidence (task : TaskIntent) (city : string) :
  parser_task task ->
  nonempty city = true ->
  8 # 10 <= compute_confidence task city <= 1.
Proof.
  intros [[Hn [v Hv]] | [Hn [_ Ha]]] Hc; unfold compute_confidence, get_area;
    rewrite Hc.
  - rewrite Hn, Hv. cbn [nonempty]. rewrite orb_false_r.
    destruct (truthy v); split; vm_compute; discriminate.
  - rewrite Hn, Ha. cbn [truthy orb].
    split; vm_compute; discriminate.
Qed.

Lemma task_materials_nonneg (P : Providers) (task : TaskIntent) (city : string)
  (ms : list Material.t) (c : Q) :
  nonneg_providers P ->
  name_has "Tile" (task_name task) = false ->
  task_materials P task city = Ok (ms, c) ->
  0 <= c.
Proof.
  intros [Hm _] Ht. unfold task_materials. rewrite Ht.
  materials_cases;
  intros H; try discriminate; injection H as <- <-;
  try (apply Hm in E; [lra | lra]); lra.
Qed.

Lemma parser_task_no_tile (task : TaskIntent) :
  parser_task task -> name_has "Tile" (task_name task) = false.
Proof.
  intros [[Hn _] | [_ [Ht _]]]; [rewrite Hn; reflexivity | exact Ht].
Qed.

Lemma parser_task_total_nonneg (P : Providers) (task : TaskIntent) (city : string)
  (l : Locals.t) :
  nonneg_providers P ->
  parser_task task ->
  price_task P city task = Ok l ->
  0 <= Locals.total_task_price l.
Proof.
  intros HP Hpt Hl.
  destruct (price_task_Ok P _ _ _ Hl)
    as (ms & c & Hm & Hh & Hlc & _ & _ & Hb & Hg & Hp & Hvr & Hv & Ht & _).
  apply (task_materials_nonneg P _ _ _ _ HP (parser_task_no_tile _ Hpt)) in Hm.
  destruct HP as (_ & Hhours & Hlabor & Hvat).
  assert (H1 : 0 <= Locals.labor_cost l).
  { rewrite Hlc. apply Hlabor. rewrite Hh. apply Hhours. }
  assert (H2 : 0 <= Locals.price_ex_vat l).
  { rewrite Hp, Hg, Hb. lra. }
  assert (H3 : 0 <= Locals.vat_amount l).
  { rewrite Hv. apply Qmult_le_0_compat; [exact H2 | rewrite Hvr; apply Hvat]. }
  rewrite Ht. lra.
Qed.

Lemma weighted_sum_bounds (ls : list Locals.t) :
  Forall (fun l => 8 # 10 <= Locals.confidence l <= 1
                   /\ 0 <= Locals.total_task_price l) ls ->
  0 <= Qsum (map Locals.total_task_price ls)
  /\ (8 # 10) * Qsum (map Locals.total_task_price ls)
     <= Qsum (map (fun l => Locals.confidence l * Locals.total_task_price l) ls).
Proof.
  induction 1 as [| l ls [[Hlo _] Hw] _ [IH1 IH2]].
  - split; vm_compute; discriminate.
  - cbn [map]. rewrite !Qsum_cons.
    assert (Hm : (8 # 10) * Locals.total_task_price l
                 <= Locals.confidence l * Locals.total_task_price l).
    { apply Qmult_le_compat_r; assumption. }
    split; lra.
Qed.

(** With providers that quote no negative amount, the global confidence of
    a run is 0.0 or at least 0.8. *)
Lemma global_conf_range (P : Providers) (U : PyUnicode) (text : str) (ls : list Locals.t) :
  nonneg_providers P ->
  let parsed := parse_transcript U text in
  let city := city_or_generic (Parsed.city parsed) in
  price_all P city (Parsed.tasks parsed) = Ok ls ->
  let g := global_conf (accumulate_all (hourly_rate P city) acc0
                          (combine (Parsed.tasks parsed) ls)) in
  g = 0 \/ 8 # 10 <= g.
Proof.
  intros HP parsed city Hls. cbn zeta.
  assert (HF : Forall (fun l => 8 # 10 <= Locals.confidence l <= 1
                                /\ 0 <= Locals.total_task_price l) ls).
  { apply Forall_forall. intros l Hl.
    rewrite <- (price_all_snd P _ _ _ Hls) in Hl. apply in_map_iff in Hl.
    destruct Hl as [x [<- Hx]].
    destruct (price_all_In P _ _ _ _ Hls Hx) as (Hin & _ & Hp).
    pose proof (parse_tasks_shape U text _ Hin) as Hshape.
    split.
    - destruct (price_task_Ok P _ _ _ Hp) as (ms & c & H).
      decompose [and] H. replace (Locals.confidence (snd x))
        with (compute_confidence (fst x) city) by (symmetry; assumption).
      apply parser_task_confidence; [exact Hshape | apply city_or_generic_nonempty].
    - apply (parser_task_total_nonneg P _ _ _ HP Hshape Hp). }
  apply weighted_sum_bounds in HF. destruct HF as [Hs Hw].
  pose proof (accumulate_all_sums (hourly_rate P city) (combine (Parsed.tasks parsed) ls) acc0)
    as Ha.
  cbn zeta in Ha. rewrite (price_all_snd P _ _ _ Hls) in Ha.
  destruct Ha as (_ & _ & _ & _ & _ & Hn & Hd).
  cbn [acc0 Acc.weighted_conf_sum Acc.weighted_cost_sum] in Hn, Hd.
  unfold global_conf, truthy.
  set (a := accumulate_all (hourly_rate P city) acc0 (combine (Parsed.tasks parsed) ls)) in *.
  destruct (Qeq_bool (Acc.weighted_cost_sum a) 0) eqn:Eb; cbn [negb]; [left; reflexivity |].
  right. apply Qeq_bool_neq in Eb.
  apply Qle_shift_div_l; [| lra].
  destruct (Qlt_le_dec 0 (Acc.weighted_cost_sum a)) as [Hpos | Hneg]; [exact Hpos |].
  exfalso. apply Eb. lra.
Qed.

(** C3.  In every quote produced with providers that quote no negative
    amount, [suspicious_input] is true exactly when the confidence score
    shown is below 0.6: the global confidence is 0.0, or at least 0.8. *)
Theorem suspicious_iff_low_confidence (P : Providers) (U : PyUnicode)
  (uuid : string) (text : str) (q : Quote.t) :
  nonneg_providers P ->
  build_quote P U uuid text = Ok q ->
  Summary.suspicious_input (Quote.summary q) = true
  <-> Summary.confidence_score (Quote.summary q) < 6 # 10.
Proof.
  intros HP Hq.
  apply build_quote_Ok in Hq. cbn zeta in Hq. destruct Hq as [ls [Hls ->]].
  pose proof (global_conf_range P U text ls HP Hls) as Hg. cbn zeta in Hg.
  unfold out_json. cbn [Quote.summary Summary.suspicious_input Summary.confidence_score].
  set (g := global_conf _) in *.
  destruct Hg as [-> | Hg].
  - split; intros _; [vm_compute; reflexivity | reflexivity].
  - pose proof (round2_bound g) as Hr. apply Qabs_Qle_condition in Hr.
    destruct (Qcompare_spec g (6 # 10)) as [He | Hl | Hgt].
    + exfalso. lra.
    + exfalso. lra.
    + split; [discriminate | intros H; exfalso; lra].
Qed.

Lemma table_providers_nonneg : nonneg_providers table_providers.
Proof.
  unfold nonneg_providers, table_providers. cbn.
  split; [| split; [| split]].
  - intros sku q c x Hq H. injection H as <-. unfold city_multiplier.
    destruct (String.eqb sku "tiles_ceramic_m2"), (String.eqb c "Paris"); lra.
  - intros tname [| a]; [lra |].
    destruct (name_has "Tiling" tname); cbn [andb]; [| lra].
    destruct (Qle_bool 0 a) eqn:Ea; cbn [andb]; [| lra].
    destruct (truthy (VNum a)); [| lra].
    apply Qle_bool_iff in Ea. unfold ceil_quarter.
    pose proof (Qle_ceiling ((9 # 10) * a * 4)) as Hc.
    apply Qle_shift_div_l; [reflexivity | lra].
  - intros h c Hh. unfold city_multiplier.
    destruct (String.eqb c "Paris"); lra.
  - intros _ _. discriminate.
Qed.

Lemma suspicious_iff_low_confidence_witness :
  exists q,
    build_quote table_providers ascii_runtime uuid_a sample_transcript = Ok q
    /\ (Summary.suspicious_input (Quote.summary q) = true
        <-> Summary.confidence_score (Quote.summary q) < 6 # 10).
Proof.
  destruct (build_quote table_providers ascii_runtime uuid_a sample_transcript)
    as [q |] eqn:Hq; [| vm_compute in Hq; discriminate].
  exists q. split; [reflexivity |].
  exact (suspicious_iff_low_confidence table_providers ascii_runtime uuid_a
           sample_transcript q table_providers_nonneg Hq).
Defined.

(** The flag reads the unrounded confidence and the score is rounded: on
    accumulators whose confidence is 0.596 the flag is set while the score
    shown is 0.6.  The equivalence above rests on the confidences the
    parsed tasks can have, not on the rounding. *)
Remark flag_reads_unrounded_confidence :
  let acc := {| Acc.tasks_out := []; Acc.total_labor_cost := 0;
                Acc.total_material_cost := 0; Acc.total_vat := 0;
                Acc.total_price := 1000; Acc.total_hours := 0;
                Acc.weighted_conf_sum := 596; Acc.weighted_cost_sum := 1000 |} in
  let s := Quote.summary (out_json uuid_a [] "Generic" "general" acc) in
  Summary.suspicious_input s = true /\ Summary.confidence_score s == 6 # 10.
Proof.
  split; vm_compute; reflexivity.
Qed.

(** ** Two calls on one transcript *)

(** The UUID of a call enters its result through [quote_id] only. *)
Lemma second_call_quote_id (P : Providers) (U : PyUnicode) (text : str) (u1 u2 : string) :
  build_quote P U u2 text
  = match build_quote P U u1 text with
    | Ok q1 => Ok (with_quote_id (generate_quote_id u2) q1)
    | Raise e => Raise e
    end.
Proof.
  unfold build_quote. cbn zeta.
  destruct (loop P _ _ acc0 _) as [acc |]; reflexivity.
Qed.

(** C7, as the code has it.  A second call on the same transcript yields
    the same outcome, with [quote_id] replaced; the identifier is "donizo-"
    followed by the first eight hexadecimal digits of the call's UUID, so
    the identifiers of two calls are equal exactly when those digits are. *)
Theorem second_call_differs_by_quote_id_only (P : Providers) (U : PyUnicode)
  (text : str) (u1 u2 : string) :
  build_quote P U u2 text
  = match build_quote P U u1 text with
    | Ok q1 => Ok (with_quote_id (generate_quote_id u2) q1)
    | Raise e => Raise e
    end
  /\ (generate_quote_id u1 = generate_quote_id u2
      <-> substring 0 8 u1 = substring 0 8 u2).
Proof.
  split.
  - apply second_call_quote_id.
  - unfold generate_quote_id. split.
    + intros H. simpl in H. injection H as H. exact H.
    + intros ->. reflexivity.
Qed.

(** C7, as the claim has it: two different UUIDs with the same first eight
    digits give two calls the very same quote, identifier included. *)
Lemma distinct_calls_same_quote_id :
  uuid_a <> uuid_b
  /\ exists q,
       build_quote table_providers ascii_runtime uuid_a sample_transcript = Ok q
       /\ build_quote table_providers ascii_runtime uuid_b sample_transcript = Ok q
       /\ Quote.quote_id q = "donizo-01234567"%string.
Proof.
  split; [discriminate |].
  destruct (build_quote table_providers ascii_runtime uuid_a sample_transcript)
    as [q |] eqn:Hq; [| vm_compute in Hq; discriminate].
  exists q. split; [reflexivity |].
  pose proof (second_call_quote_id table_providers ascii_runtime sample_transcript uuid_a uuid_b)
    as H.
  rewrite Hq in H. rewrite H.
  vm_compute in Hq. injection Hq as <-. split; reflexivity.
Qed.

(** ** The city of the lookups *)

(** Every material line of a priced task is a lookup for the task's city. *)
Lemma task_materials_lookups (P : Providers) (task : TaskIntent) (city : string)
  (ms : list Material.t) (c : Q) (m : Material.t) :
  task_materials P task city = Ok (ms, c) ->
  In m ms ->
  get_material_cost P (Material.name m) (Material.qty m) city = Ok (Material.total m).
Proof.
  materials_cases;
  intros H; try discriminate; injection H as <- <-;
  intros Hin; simpl in Hin;
  first [ contradiction | destruct Hin as [<- | Hin]; [exact E | contradiction] ].
Qed.

Lemma task_materials_ext (P P' : Providers) (task : TaskIntent) (city : string) :
  (forall sku qty, get_material_cost P sku qty city = get_material_cost P' sku qty city) ->
  task_materials P task city = task_materials P' task city.
Proof.
  intros H. unfold task_materials, fixture. rewrite !H. reflexivity.
Qed.

Lemma price_task_ext (P P' : Providers) (task : TaskIntent) (city : string) :
  agree_at city P P' ->
  price_task P city task = price_task P' city task.
Proof.
  intros (Hm & Hh & Hl & _ & Hv). unfold price_task.
  rewrite (task_materials_ext P P' task city Hm), Hh, Hl, Hv. reflexivity.
Qed.

Lemma loop_ext (P P' : Providers) (city : string) (hourly : Q)
  (tasks : list TaskIntent) (acc : Acc.t) :
  agree_at city P P' ->
  loop P city hourly acc tasks = loop P' city hourly acc tasks.
Proof.
  intros H. revert acc. induction tasks as [| task rest IH]; intros acc; simpl.
  - reflexivity.
  - unfold loop_body. rewrite (price_task_ext P P' task city H).
    destruct (price_task P' city task) as [l |]; simpl; [apply IH | reflexivity].
Qed.

(** C10.  When no known city is found in the transcript, the quote's
    [location] is the string "Generic" and every lookup is made for
    "Generic": the hourly rate, labour cost, VAT rate and material lines of
    each task are the providers' answers for that city, and the outcome of
    the call is the same for any providers that answer alike for it. *)
Theorem unknown_city_is_generic (P : Providers) (U : PyUnicode) (uuid : string) (text : str) :
  re_search_city (str_lower U text) = None ->
  (forall q, build_quote P U uuid text = Ok q ->
     Quote.location q = "Generic"%string
     /\ forall t, In t (quote_tasks q) ->
          Labor.hourly_rate (Task.labor t) = hourly_rate P "Generic"
          /\ Labor.cost (Task.labor t)
             = compute_labor_cost P (Labor.hours (Task.labor t)) "Generic"
          /\ Task.vat_rate t = get_vat_rate P (Task.task_name t) "Generic"
          /\ forall m, In m (Task.materials t) ->
               get_material_cost P (Material.name m) (Material.qty m) "Generic"
               = Ok (Material.total m))
  /\ (forall P', agree_at "Generic" P P' ->
        build_quote P' U uuid text = build_quote P U uuid text).
Proof.
  intros Hc.
  assert (Ecity : city_or_generic (Parsed.city (parse_transcript U text)) = "Generic"%string).
  { unfold parse_transcript. cbn [Parsed.city]. rewrite Hc. reflexivity. }
  split.
  - intros q Hq. split.
    + apply build_quote_Ok in Hq. cbn zeta in Hq. destruct Hq as [ls [_ ->]].
      unfold out_json. cbn [Quote.location]. exact Ecity.
    + intros t Hin.
      destruct (quote_task_origin P U uuid text q t Hq Hin) as (task & l & _ & Hl & ->).
      rewrite Ecity in *.
      destruct (price_task_Ok P _ _ _ Hl)
        as (ms & c & Hm & _ & Hlc & Hms & _ & _ & _ & _ & Hvr & _).
      unfold task_record.
      cbn [Task.labor Task.vat_rate Task.task_name Task.materials
           Labor.hourly_rate Labor.cost Labor.hours].
      repeat split; [exact Hlc | exact Hvr |].
      intros m Hmin. rewrite Hms in Hmin.
      exact (task_materials_lookups P _ _ _ _ m Hm Hmin).
  - intros P' Hag. unfold build_quote. cbn zeta. rewrite Ecity.
    destruct Hag as (Hm & Hh & Hl & Hr & Hv).
    rewrite <- Hr.
    rewrite (loop_ext P P' "Generic" _ _ acc0); [reflexivity |].
    repeat split; assumption.
Qed.

Lemma unknown_city_is_generic_witness :
  exists q,
    build_quote table_providers ascii_runtime uuid_a (lit "Replace the toilet in Nice") = Ok q
    /\ Quote.location q = "Generic"%string.
Proof.
  destruct (build_quote table_providers ascii_runtime uuid_a (lit "Replace the toilet in Nice"))
    as [q |] eqn:Hq; [| vm_compute in Hq; discriminate].
  exists q. split; [reflexivity |].
  apply (unknown_city_is_generic table_providers ascii_runtime uuid_a
           (lit "Replace the toilet in Nice")); [vm_compute; reflexivity | exact Hq].
Defined.

(** ** The engine returns *)

(** The six dicts the parser can emit. *)
Lemma parse_tasks_names (U : PyUnicode) (text : str) (t : TaskIntent) :
  In t (Parsed.tasks (parse_transcript U text)) ->
  t = {| task_name := "Floor Tiling (ceramic)";
         area_m2 := Some (Parsed.area_m2 (parse_transcript U text)) |}
  \/ In t [ {| task_name := "Repaint Walls"; area_m2 := None |};
            {| task_name := "Shower Plumbing (redo)"; area_m2 := None |};
            {| task_name := "Replace Toilet"; area_m2 := None |};
            {| task_name := "Install Vanity"; area_m2 := None |};
            {| task_name := "Demolition & Disposal"; area_m2 := None |} ].
Proof.
  rewrite parse_tasks_table. unfold tasks_by_table. rewrite in_map_iff.
  intros [tr [<- Htr]]. apply filter_In in Htr. destruct Htr as [Htr _].
  unfold trigger_table in Htr. simpl in Htr.
  destruct Htr as [<- | [<- | [<- | [<- | [<- | [<- | []]]]]]]; cbn [snd];
    [left; reflexivity | right; simpl; tauto ..].
Qed.

Lemma price_all_total (P : Providers) (city : string) (tasks : list TaskIntent) :
  (forall t, In t tasks -> exists l, price_task P city t = Ok l) ->
  exists ls, price_all P city tasks = Ok ls.
Proof.
  induction tasks as [| task rest IH]; intros H; simpl.
  - exists []. reflexivity.
  - destruct (H task (or_introl eq_refl)) as [l ->].
    destruct IH as [ls ->]; [intros t Ht; apply H; right; exact Ht |].
    simpl. eexists. reflexivity.
Qed.

(** For every transcript the engine returns a quote, provided the material
    lookup answers for a quantity of one: the only quantity the parsed
    tasks ever reach it with. *)
Theorem build_quote_returns (P : Providers) (U : PyUnicode) (uuid : string) (text : str) :
  (forall sku c, exists x, get_material_cost P sku (VNum 1) c = Ok x) ->
  exists q, build_quote P U uuid text = Ok q.
Proof.
  intros HP. unfold build_quote. cbn zeta. rewrite loop_price_all.
  destruct (price_all_total P (city_or_generic (Parsed.city (parse_transcript U text)))
              (Parsed.tasks (parse_transcript U text))) as [ls ->].
  - intros t Ht. apply parse_tasks_names in Ht.
    assert (Hf : forall sku c, exists r, fixture P sku c = Ok r).
    { intros sku c. unfold fixture. destruct (HP sku c) as [x ->]. simpl. eexists. reflexivity. }
    unfold price_task, task_materials.
    destruct Ht as [-> | [<- | [<- | [<- | [<- | [<- | []]]]]]]; cbn [task_name];
      match goal with
      | |- context [name_has "Tile" ?n] =>
          let b := eval vm_compute in (name_has "Tile" n) in
          change (name_has "Tile" n) with b
      end; cbn iota;
      repeat match goal with
      | |- context [name_has ?p ?n] =>
          let b := eval vm_compute in (name_has p n) in
          change (name_has p n) with b; cbn iota
      end;
      try (eexists; reflexivity);
      match goal with
      | |- context [fixture P ?sku ?c] => destruct (Hf sku c) as [[ms x] ->]
      end; eexists; reflexivity.
  - simpl. eexists. reflexivity.
Qed.

Lemma build_quote_returns_witness :
  exists q, build_quote table_providers ascii_runtime uuid_a sample_transcript = Ok q.
Proof.
  apply (build_quote_returns table_providers ascii_runtime uuid_a sample_transcript).
  intros sku c. eexists. reflexivity.
Defined.

(** ** Margin and confidence *)

(** The margin rate is the larger of the default and the floor, so it is
    never below either, and the margin amount is the base price times it. *)
Theorem margin_never_below_floor (base_price default_margin min_margin : Q) :
  let r := apply_margin_protection base_price default_margin min_margin in
  min_margin <= fst r
  /\ default_margin <= fst r
  /\ (fst r = default_margin \/ fst r = min_margin)
  /\ snd r = base_price * fst r.
Proof.
  unfold apply_margin_protection, py_max. cbn [fst snd].
  destruct (Qcompare_spec min_margin default_margin) as [He | Hl | Hg].
  - repeat split; [rewrite He | | left]; solve [apply Qle_refl | reflexivity].
  - repeat split; [apply Qlt_le_weak; exact Hl | apply Qle_refl | left; reflexivity].
  - repeat split; [apply Qle_refl | apply Qlt_le_weak; exact Hg | right; reflexivity].
Qed.

(** The confidence of any task dict, with any city string, lies between 0.3
    and 1.0, and it is 1.0 exactly when the task has a name, its area is
    usable or not asked for, and the city string is not empty. *)
Theorem compute_confidence_range (task : TaskIntent) (city : string) :
  3 # 10 <= compute_confidence task city <= 1
  /\ (compute_confidence task city == 1
      <-> nonempty (task_name task) = true
          /\ (truthy (get_area task) = true \/ area_m2 task = None)
          /\ nonempty city = true).
Proof.
  unfold compute_confidence, get_area.
  destruct (nonempty (task_name task)), (nonempty city), (area_m2 task) as [v |];
    try destruct (truthy v); cbn [orb truthy];
    (split; [split; vm_compute; discriminate |]);
    (split; [intros H; try (vm_compute in H; discriminate H);
             repeat split; auto
            | intros (H1 & [H2 | H2] & H3); try discriminate;
              vm_compute; reflexivity ]).
Qed.

(** In a produced quote every task shows a confidence of 1.0, except the
    tiling task without a usable area (none found, or zero), which shows
    0.8.  Whether a city was found plays no part: the scorer is handed the
    city after the "Generic" fallback, which is never empty. *)
Theorem quote_task_confidence (P : Providers) (U : PyUnicode) (uuid : string)
  (text : str) (q : Quote.t) (t : Task.t) :
  build_quote P U uuid text = Ok q ->
  In t (quote_tasks q) ->
  Task.confidence t
  == if String.eqb (Task.task_name t) "Floor Tiling (ceramic)"
        && negb (truthy (Task.area_m2 t))
     then 8 # 10 else 1.
Proof.
  intros Hq Hin.
  destruct (quote_task_origin P U uuid text q t Hq Hin) as (task & l & Htask & Hl & ->).
  destruct (price_task_Ok P _ _ _ Hl) as (ms & c & H).
  decompose [and] H. clear H.
  unfold task_record. cbn [Task.confidence Task.task_name Task.area_m2].
  replace (Locals.confidence l)
    with (compute_confidence task
            (city_or_generic (Parsed.city (parse_transcript U text))))
    by (symmetry; assumption).
  unfold compute_confidence. rewrite city_or_generic_nonempty.
  apply parse_tasks_names in Htask.
  destruct Htask as [-> | [<- | [<- | [<- | [<- | [<- | []]]]]]];
    cbn [task_name area_m2 get_area nonempty String.eqb Ascii.eqb Bool.eqb andb];
    try (vm_compute; reflexivity).
  destruct (truthy (Parsed.area_m2 (parse_transcript U text)));
    vm_compute; reflexivity.
Qed.

Lemma quote_task_confidence_witness :
  exists q t,
    build_quote table_providers ascii_runtime uuid_a (lit "New tiles and a new toilet") = Ok q
    /\ nth_error (quote_tasks q) 0 = Some t
    /\ Task.confidence t == 8 # 10.
Proof.
  destruct (build_quote table_providers ascii_runtime uuid_a (lit "New tiles and a new toilet"))
    as [q |] eqn:Hq; [| vm_compute in Hq; discriminate].
  destruct (nth_error (quote_tasks q) 0) as [t |] eqn:Ht.
  - exists q, t. split; [reflexivity |]. split; [exact Ht |].
    rewrite (quote_task_confidence table_providers ascii_runtime uuid_a
               (lit "New tiles and a new toilet") q t Hq (nth_error_In _ _ Ht)).
    vm_compute in Hq. injection Hq as <-. vm_compute in Ht. injection Ht as <-.
    vm_compute. reflexivity.
  - exfalso. vm_compute in Hq. injection Hq as <-. vm_compute in Ht. discriminate.
Defined.

(** Rounding keeps a number on its side of a whole number of cents. *)
Lemma round_half_even_ge (x : Q) (n : Z) :
  inject_Z n <= x -> (n <= round_half_even x)%Z.
Proof.
  intros H. pose proof (round_half_even_bound x) as [Hlo _].
  destruct (Z_lt_le_dec (round_half_even x) n) as [Hlt | Hge]; [| exact Hge].
  exfalso.
  assert (Hz : inject_Z (round_half_even x) <= inject_Z (n - 1))
    by (rewrite <- Zle_Qle; lia).
  unfold Z.sub in Hz. rewrite inject_Z_plus in Hz.
  change (inject_Z (- (1))) with (-1 # 1) in Hz. lra.
Qed.

Lemma round_half_even_le (x : Q) (n : Z) :
  x <= inject_Z n -> (round_half_even x <= n)%Z.
Proof.
  intros H. pose proof (round_half_even_bound x) as [_ Hhi].
  destruct (Z_lt_le_dec n (round_half_even x)) as [Hlt | Hge]; [| exact Hge].
  exfalso.
  assert (Hz : inject_Z (n + 1) <= inject_Z (round_half_even x))
    by (rewrite <- Zle_Qle; lia).
  rewrite inject_Z_plus in Hz. change (inject_Z 1) with 1 in Hz. lra.
Qed.

Lemma round2_between (x : Q) (lo hi : Z) :
  inject_Z lo / 100 <= x <= inject_Z hi / 100 ->
  inject_Z lo / 100 <= round2 x <= inject_Z hi / 100.
Proof.
  intros [Hlo Hhi]. unfold round2.
  assert (H1 : (lo <= round_half_even (x * 100))%Z).
  { apply round_half_even_ge.
    assert (E : inject_Z lo == inject_Z lo / 100 * 100) by field.
    rewrite E. apply Qmult_le_compat_r; [exact Hlo | discriminate]. }
  assert (H2 : (round_half_even (x * 100) <= hi)%Z).
  { apply round_half_even_le.
    assert (E : inject_Z hi == inject_Z hi / 100 * 100) by field.
    rewrite E. apply Qmult_le_compat_r; [exact Hhi | discriminate]. }
  rewrite Zle_Qle in H1, H2.
  split; apply Qmult_le_compat_r; solve [assumption | discriminate].
Qed.

Lemma weighted_sum_upper (ls : list Locals.t) :
  Forall (fun l => 8 # 10 <= Locals.confidence l <= 1
                   /\ 0 <= Locals.total_task_price l) ls ->
  Qsum (map (fun l => Locals.confidence l * Locals.total_task_price l) ls)
  <= Qsum (map Locals.total_task_price ls).
Proof.
  induction 1 as [| l ls [[_ Hhi] Hw] _ IH].
  - vm_compute. discriminate.
  - cbn [map]. rewrite !Qsum_cons.
    assert (Hm : Locals.confidence l * Locals.total_task_price l
                 <= 1 * Locals.total_task_price l).
    { apply Qmult_le_compat_r; assumption. }
    lra.
Qed.

(** With providers that quote no negative amount the confidence score of a
    quote is 0.0 or lies between 0.8 and 1.0; it is always within [0, 1]. *)
Theorem confidence_score_range (P : Providers) (U : PyUnicode) (uuid : string)
  (text : str) (q : Quote.t) :
  nonneg_providers P ->
  build_quote P U uuid text = Ok q ->
  let score := Summary.confidence_score (Quote.summary q) in
  (score == 0 \/ 8 # 10 <= score <= 1) /\ 0 <= score <= 1.
Proof.
  intros HP Hq. cbn zeta.
  apply build_quote_Ok in Hq. cbn zeta in Hq. destruct Hq as [ls [Hls ->]].
  set (city := city_or_generic (Parsed.city (parse_transcript U text))) in *.
  set (tasks := Parsed.tasks (parse_transcript U text)) in *.
  unfold out_json. cbn [Quote.summary Summary.confidence_score].
  assert (HF : Forall (fun l => 8 # 10 <= Locals.confidence l <= 1
                                /\ 0 <= Locals.total_task_price l) ls).
  { apply Forall_forall. intros l Hl.
    rewrite <- (price_all_snd P _ _ _ Hls) in Hl. apply in_map_iff in Hl.
    destruct Hl as [x [<- Hx]].
    destruct (price_all_In P _ _ _ _ Hls Hx) as (Hin & _ & Hp).
    pose proof (parse_tasks_shape U text _ Hin) as Hshape.
    split.
    - destruct (price_task_Ok P _ _ _ Hp) as (ms & c & H).
      decompose [and] H. replace (Locals.confidence (snd x))
        with (compute_confidence (fst x) city) by (symmetry; assumption).
      apply parser_task_confidence; [exact Hshape | apply city_or_generic_nonempty].
    - apply (parser_task_total_nonneg P _ _ _ HP Hshape Hp). }
  pose proof (weighted_sum_upper ls HF) as Hup.
  pose proof (weighted_sum_bounds ls HF) as [Hs Hlow].
  pose proof (accumulate_all_sums (hourly_rate P city) (combine tasks ls) acc0) as Ha.
  cbn zeta in Ha. rewrite (price_all_snd P _ _ _ Hls) in Ha.
  destruct Ha as (_ & _ & _ & _ & _ & Hn & Hd).
  cbn [acc0 Acc.weighted_conf_sum Acc.weighted_cost_sum] in Hn, Hd.
  unfold global_conf, truthy.
  set (a := accumulate_all (hourly_rate P city) acc0 (combine tasks ls)) in *.
  destruct (Qeq_bool (Acc.weighted_cost_sum a) 0) eqn:Eb; cbn [negb].
  - split; [left |]; vm_compute; try reflexivity. split; discriminate.
  - apply Qeq_bool_neq in Eb.
    assert (Hpos : 0 < Acc.weighted_cost_sum a).
    { destruct (Qlt_le_dec 0 (Acc.weighted_cost_sum a)) as [Hp | Hn']; [exact Hp |].
      exfalso. apply Eb. lra. }
    assert (Hg : inject_Z 80 / 100
                 <= Acc.weighted_conf_sum a / Acc.weighted_cost_sum a
                 <= inject_Z 100 / 100).
    { split.
      - apply Qle_shift_div_l; [exact Hpos |].
        assert (E : inject_Z 80 / 100 == 8 # 10) by reflexivity. rewrite E. lra.
      - apply Qle_shift_div_r; [exact Hpos |].
        assert (E : inject_Z 100 / 100 == 1) by reflexivity. rewrite E. lra. }
    apply round2_between in Hg.
    assert (E1 : inject_Z 80 / 100 == 8 # 10) by reflexivity.
    assert (E2 : inject_Z 100 / 100 == 1) by reflexivity.
    rewrite E1, E2 in Hg. destruct Hg as [Hg1 Hg2].
    split; [right; split; assumption | split; [lra | assumption]].
Qed.

Lemma confidence_score_range_witness :
  exists q,
    build_quote table_providers ascii_runtime uuid_a sample_transcript = Ok q
    /\ 0 <= Summary.confidence_score (Quote.summary q) <= 1.
Proof.
  destruct (build_quote table_providers ascii_runtime uuid_a sample_transcript)
    as [q |] eqn:Hq; [| vm_compute in Hq; discriminate].
  exists q. split; [reflexivity |].
  apply (confidence_score_range table_providers ascii_runtime uuid_a sample_transcript q
           table_providers_nonneg Hq).
Defined.

(** ** The patterns of the parser *)

Section PatternFacts.

Variable U : PyUnicode.

Lemma match_area_at_sound (s : str) (ds : list N) :
  match_area_at U s = Some ds -> area_match_here U ds s.
Proof.
  revert ds. induction s as [| c s IH]; intros ds H; simpl in H; [discriminate |].
  destruct (re_digit U c) as [d |] eqn:Ed; [| discriminate].
  destruct (match_area_at U s) as [ds' |].
  - injection H as <-. destruct (IH ds' eq_refl) as (cs & rest & -> & _ & Hd & Ht).
    exists (c :: cs), rest. repeat split; [discriminate | constructor; assumption | exact Ht].
  - destruct (space_unit_here U s) eqn:Et; [| discriminate].
    injection H as <-. exists [c], s.
    repeat split; [discriminate | constructor; [exact Ed | constructor] | exact Et].
Qed.

Lemma match_area_at_complete (s : str) (ds : list N) :
  area_match_here U ds s -> exists ds', match_area_at U s = Some ds'.
Proof.
  intros (cs & rest & -> & Hne & Hd & Ht).
  induction Hd as [| c d cs ds Hc Hd IH]; [contradiction Hne; reflexivity |].
  cbn [app match_area_at]. rewrite Hc.
  destruct (match_area_at U (cs ++ rest)) as [ds' |] eqn:Em.
  - eexists. reflexivity.
  - destruct cs as [| c' cs].
    + simpl. rewrite Ht. eexists. reflexivity.
    + destruct IH as [ds' Hds']; [discriminate | congruence].
Qed.

(** The area search finds nothing exactly when the pattern
    [(\d+)\s?m[²2]] matches nowhere in the text, and what it finds is group
    1 of a match: the values of a run of digits that the unit follows. *)
Theorem re_search_area_spec (s : str) :
  (re_search_area U s = None
   <-> forall pre s' ds, s = pre ++ s' -> ~ area_match_here U ds s')
  /\ (forall ds, re_search_area U s = Some ds ->
        exists pre s', s = pre ++ s' /\ area_match_here U ds s').
Proof.
  split; [split |].
  - induction s as [| c s IH]; intros H pre s' ds E Hm.
    + destruct pre; [| discriminate]. simpl in E. subst s'.
      destruct (match_area_at_complete _ _ Hm) as [ds' Hds']. discriminate.
    + cbn [re_search_area] in H.
      destruct (match_area_at U (c :: s)) as [ds0 |] eqn:E0; [discriminate |].
      destruct pre as [| c' pre].
      * simpl in E. subst s'.
        destruct (match_area_at_complete _ _ Hm) as [ds' Hds']. congruence.
      * injection E as _ E. exact (IH H pre s' ds E Hm).
  - induction s as [| c s IH]; intros H; cbn [re_search_area].
    + destruct (match_area_at U []) as [ds |] eqn:E0; [| reflexivity].
      exfalso. exact (H [] [] ds eq_refl (match_area_at_sound _ _ E0)).
    + destruct (match_area_at U (c :: s)) as [ds |] eqn:E0.
      * exfalso. exact (H [] (c :: s) ds eq_refl (match_area_at_sound _ _ E0)).
      * apply IH. intros pre s' ds E. apply (H (c :: pre) s' ds). simpl. rewrite E. reflexivity.
  - induction s as [| c s IH]; intros ds H; cbn [re_search_area] in H.
    + destruct (match_area_at U []) as [ds0 |] eqn:E0; [| discriminate].
      injection H as <-. exists [], []. split; [reflexivity | apply match_area_at_sound; exact E0].
    + destruct (match_area_at U (c :: s)) as [ds0 |] eqn:E0.
      * injection H as <-. exists [], (c :: s).
        split; [reflexivity | apply match_area_at_sound; exact E0].
      * destruct (IH ds H) as (pre & s' & -> & Hm).
        exists (c :: pre), s'. split; [reflexivity | exact Hm].
Qed.

End PatternFacts.

Lemma match_city_at_Some (s : str) (c : string) :
  match_city_at s = Some c -> In c city_names /\ starts_with (lit c) s = true.
Proof.
  unfold match_city_at. intros H. apply find_some in H. exact H.
Qed.

Lemma starts_with_str_in (pat s : str) :
  starts_with pat s = true -> str_in pat s = true.
Proof.
  intros H. destruct s; simpl in *; rewrite H; reflexivity.
Qed.

Lemma str_in_cons (pat : str) (c : N) (s : str) :
  str_in pat s = true -> str_in pat (c :: s) = true.
Proof.
  intros H. cbn [str_in]. rewrite H. apply orb_true_r.
Qed.

(** The city search finds nothing exactly when none of the three names
    occurs in the text; what it finds is one of the names and occurs. *)
Lemma re_search_city_spec (s : str) :
  (re_search_city s = None
   <-> forall c, In c city_names -> str_in (lit c) s = false)
  /\ (forall c, re_search_city s = Some c -> In c city_names /\ str_in (lit c) s = true).
Proof.
  split; [split |].
  - induction s as [| a s IH]; intros H c Hc; cbn [re_search_city] in H.
    + destruct (match_city_at []) eqn:E0; [discriminate |].
      unfold match_city_at in E0.
      pose proof (find_none _ _ E0 c Hc) as Hn. simpl. rewrite orb_false_r. exact Hn.
    + destruct (match_city_at (a :: s)) eqn:E0; [discriminate |].
      unfold match_city_at in E0.
      pose proof (find_none _ _ E0 c Hc) as Hn.
      cbn [str_in]. rewrite Hn. simpl. exact (IH H c Hc).
  - induction s as [| a s IH]; intros H; cbn [re_search_city].
    + destruct (match_city_at []) as [c |] eqn:E0; [| reflexivity].
      apply match_city_at_Some in E0. destruct E0 as [Hc Hs].
      apply starts_with_str_in in Hs. rewrite (H c Hc) in Hs. discriminate.
    + destruct (match_city_at (a :: s)) as [c |] eqn:E0.
      * apply match_city_at_Some in E0. destruct E0 as [Hc Hs].
        apply starts_with_str_in in Hs. rewrite (H c Hc) in Hs. discriminate.
      * apply IH. intros c Hc. specialize (H c Hc). cbn [str_in] in H.
        apply orb_false_iff in H. exact (proj2 H).
  - induction s as [| a s IH]; intros c H; cbn [re_search_city] in H.
    + destruct (match_city_at []) as [c0 |] eqn:E0; [| discriminate].
      injection H as <-. apply match_city_at_Some in E0.
      split; [exact (proj1 E0) | apply starts_with_str_in; exact (proj2 E0)].
    + destruct (match_city_at (a :: s)) as [c0 |] eqn:E0.
      * injection H as <-. apply match_city_at_Some in E0.
        split; [exact (proj1 E0) | apply starts_with_str_in; exact (proj2 E0)].
      * destruct (IH c H) as [Hc Hs]. split; [exact Hc | apply str_in_cons; exact Hs].
Qed.

(** The location of a quote is "Marseille", "Paris", "Lyon" or "Generic";
    it is "Generic" exactly when none of the three names occurs in the
    lowercased transcript, and a named city does occur there in lower
    case. *)
Theorem quote_location_spec (P : Providers) (U : PyUnicode) (uuid : string)
  (text : str) (q : Quote.t) :
  build_quote P U uuid text = Ok q ->
  let low := str_lower U text in
  In (Quote.location q) ["Marseille"; "Paris"; "Lyon"; "Generic"]%string
  /\ (Quote.location q = "Generic"%string
      <-> str_in (lit "marseille") low = false
          /\ str_in (lit "paris") low = false
          /\ str_in (lit "lyon") low = false)
  /\ (Quote.location q = "Marseille"%string -> str_in (lit "marseille") low = true)
  /\ (Quote.location q = "Paris"%string -> str_in (lit "paris") low = true)
  /\ (Quote.location q = "Lyon"%string -> str_in (lit "lyon") low = true).
Proof.
  intros Hq. cbn zeta.
  apply build_quote_Ok in Hq. cbn zeta in Hq. destruct Hq as [ls [_ ->]].
  unfold out_json. cbn [Quote.location].
  unfold parse_transcript. cbn [Parsed.city].
  destruct (re_search_city_spec (str_lower U text)) as [[HN1 HN2] HS].
  destruct (re_search_city (str_lower U text)) as [c |] eqn:Ec.
  - destruct (HS c eq_refl) as [Hc Hin].
    unfold city_names in Hc. simpl in Hc.
    destruct Hc as [<- | [<- | [<- | []]]];
      match goal with
      | |- context [city_or_generic ?x] =>
          let v := eval vm_compute in (city_or_generic x) in
          change (city_or_generic x) with v
      end;
      (split; [simpl; tauto |]);
      (split; [split; [discriminate | intros (H1 & H2 & H3); congruence] |]);
      repeat split; intros; solve [assumption | discriminate].
  - pose proof (HN1 eq_refl) as Hn.
    change (city_or_generic (option_map capitalize None)) with "Generic"%string.
    split; [simpl; tauto |].
    split; [split; [intros _ | reflexivity] |].
    + repeat split; apply Hn; unfold city_names; simpl; tauto.
    + repeat split; discriminate.
Qed.

Lemma quote_location_spec_witness :
  exists q,
    build_quote table_providers ascii_runtime uuid_a (lit "A vanity for a flat in LYON") = Ok q
    /\ In (Quote.location q) ["Marseille"; "Paris"; "Lyon"; "Generic"]%string.
Proof.
  destruct (build_quote table_providers ascii_runtime uuid_a (lit "A vanity for a flat in LYON"))
    as [q |] eqn:Hq; [| vm_compute in Hq; discriminate].
  exists q. split; [reflexivity |].
  exact (proj1 (quote_location_spec table_providers ascii_runtime uuid_a
                  (lit "A vanity for a flat in LYON") q Hq)).
Defined.

(** ** The tasks of a quote *)

(** The parsed task names are a selection of the catalog in its order:
    no name twice, six tasks at most. *)
Theorem parsed_task_names_from_catalog (U : PyUnicode) (text : str) :
  let names := map task_name (Parsed.tasks (parse_transcript U text)) in
  subsequence names catalog = true
  /\ NoDup names
  /\ (List.length names <= 6)%nat.
Proof.
  cbn zeta.
  assert (Hs : subsequence (map task_name (Parsed.tasks (parse_transcript U text))) catalog
               = true
               /\ NoDup (map task_name (Parsed.tasks (parse_transcript U text)))).
  { unfold parse_transcript, append_if. cbn [Parsed.tasks].
    repeat match goal with |- context [if ?b then _ else _] => destruct b end;
      (split; [reflexivity |]);
      cbn [app map task_name];
      repeat (constructor; [simpl; intros H; repeat (destruct H as [H | H]; [discriminate |]);
                            exact H |]);
      constructor. }
  destruct Hs as [H1 H2]. split; [exact H1 |]. split; [exact H2 |].
  rewrite length_map. apply parse_tasks_at_most_six.
Qed.

(** A produced quote has one zone, and its task records are the parsed
    tasks one for one, in order, each with the name and the area of its
    task. *)
Theorem quote_lists_parsed_tasks (P : Providers) (U : PyUnicode) (uuid : string)
  (text : str) (q : Quote.t) :
  build_quote P U uuid text = Ok q ->
  let parsed := parse_transcript U text in
  map Zone.zone_name (Quote.zones q) = [Parsed.zone parsed]
  /\ map Task.task_name (quote_tasks q) = map task_name (Parsed.tasks parsed)
  /\ map Task.area_m2 (quote_tasks q) = map get_area (Parsed.tasks parsed)
  /\ (forall t, In t (quote_tasks q) ->
        Task.area_m2 t = VNone
        \/ (Task.task_name t = "Floor Tiling (ceramic)"%string
            /\ Task.area_m2 t = Parsed.area_m2 parsed)).
Proof.
  intros Hq. cbn zeta.
  pose proof Hq as Hq'.
  apply build_quote_Ok in Hq. cbn zeta in Hq. destruct Hq as [ls [Hls Eq]].
  assert (Hf : forall (A : Type) (f : TaskIntent -> A) (g : Task.t -> A),
             (forall h task l, g (task_record h task l) = f task) ->
             map g (quote_tasks q) = map f (Parsed.tasks (parse_transcript U text))).
  { intros A f g Hfg. rewrite Eq, quote_tasks_out_json, map_map.
    apply price_all_Forall2 in Hls. clear Eq Hq'.
    induction Hls as [| task l tasks ls' _ _ IH]; [reflexivity |].
    cbn [combine map fst snd]. rewrite Hfg, IH. reflexivity. }
  split; [rewrite Eq; reflexivity |].
  split; [apply Hf; reflexivity |].
  split; [apply Hf; reflexivity |].
  intros t Hin.
  destruct (quote_task_origin P U uuid text q t Hq' Hin) as (task & l & Htask & _ & ->).
  apply parse_tasks_names in Htask.
  destruct Htask as [-> | [<- | [<- | [<- | [<- | [<- | []]]]]]];
    [right; split; reflexivity | left; reflexivity ..].
Qed.

Lemma quote_lists_parsed_tasks_witness :
  exists q,
    build_quote table_providers ascii_runtime uuid_a sample_transcript = Ok q
    /\ map Task.task_name (quote_tasks q)
       = map task_name (Parsed.tasks (parse_transcript ascii_runtime sample_transcript)).
Proof.
  destruct (build_quote table_providers ascii_runtime uuid_a sample_transcript)
    as [q |] eqn:Hq; [| vm_compute in Hq; discriminate].
  exists q. split; [reflexivity |].
  exact (proj1 (proj2 (quote_lists_parsed_tasks table_providers ascii_runtime uuid_a
                         sample_transcript q Hq))).
Defined.

(** ** Material lines *)

(** A division returns only for a numeric divisor other than zero. *)
Lemma truediv_Ok (cost : Q) (qty : value) (x : Q) :
  truediv cost qty = Ok x ->
  exists q, qty = VNum q /\ ~ q == 0 /\ x = cost / q.
Proof.
  unfold truediv. destruct qty as [| q]; [discriminate |].
  destruct (Qeq_bool q 0) eqn:E; [discriminate |].
  intros H. injection H as <-. exists q.
  split; [reflexivity | split; [apply Qeq_bool_neq; exact E | reflexivity]].
Qed.

(** Whatever branch of the dispatch prices a task, each of its material
    lines has a numeric quantity other than zero and keeps
    [total == unit_cost * qty]. *)
Theorem material_line_invariant (P : Providers) (task : TaskIntent) (city : string)
  (ms : list Material.t) (c : Q) (m : Material.t) :
  task_materials P task city = Ok (ms, c) ->
  In m ms ->
  exists qty,
    Material.qty m = VNum qty
    /\ ~ qty == 0
    /\ Material.total m == Material.unit_cost m * qty.
Proof.
  materials_cases;
  intros H; try discriminate; injection H as <- <-;
  intros Hin; simpl in Hin;
  (first [ contradiction | destruct Hin as [<- | Hin]; [| contradiction] ]);
  cbn [Material.qty Material.total Material.unit_cost];
  match goal with
  | H : truediv _ _ = Ok _ |- _ =>
      apply truediv_Ok in H; destruct H as (qty & Eq & Hq0 & ->);
      exists qty; split; [exact Eq | split; [exact Hq0 | field; exact Hq0]]
  | |- _ => exists 1; split; [reflexivity | split; [discriminate | ring]]
  end.
Qed.

Lemma material_line_invariant_witness :
  exists m,
    task_materials table_providers
      {| task_name := "Tile the floor"; area_m2 := Some (VNum 6) |} "Paris"
    = Ok ([m], 0 + 25 * 6 * (125 # 100))
    /\ exists qty,
         Material.qty m = VNum qty
         /\ ~ qty == 0
         /\ Material.total m == Material.unit_cost m * qty.
Proof.
  eexists. split; [reflexivity |].
  eapply (material_line_invariant table_providers
            {| task_name := "Tile the floor"; area_m2 := Some (VNum 6) |} "Paris").
  - reflexivity.
  - left. reflexivity.
Defined.

(** In a produced quote the tiling and repainting tasks have no material
    line, and each other task has exactly one: a quantity of one of
    "plumbing_parts", "toilet_standard", "vanity_basic" or "disposal_fee",
    its unit cost equal to its total.  The lines "tiles_ceramic_m2" and
    "paint_litre" never occur: their branches test for "Tile" and "Paint",
    which the names "Floor Tiling (ceramic)" and "Repaint Walls" do not
    contain. *)
Theorem quote_material_lines (P : Providers) (U : PyUnicode) (uuid : string)
  (text : str) (q : Quote.t) (t : Task.t) :
  build_quote P U uuid text = Ok q ->
  In t (quote_tasks q) ->
  (In (Task.task_name t) ["Floor Tiling (ceramic)"; "Repaint Walls"]%string
   /\ Task.materials t = [])
  \/ (exists sku cost,
        In (Task.task_name t, sku)
          [ ("Shower Plumbing (redo)", "plumbing_parts");
            ("Replace Toilet", "toilet_standard");
            ("Install Vanity", "vanity_basic");
            ("Demolition & Disposal", "disposal_fee") ]%string
        /\ Task.materials t
           = [{| Material.name := sku; Material.qty := VNum 1;
                 Material.unit_cost := cost; Material.total := cost |}]).
Proof.
  intros Hq Hin.
  destruct (quote_task_origin P U uuid text q t Hq Hin) as (task & l & Htask & Hl & ->).
  destruct (price_task_Ok P _ _ _ Hl) as (ms & c & Hm & _ & _ & Hms & _).
  unfold task_record. cbn [Task.task_name Task.materials]. rewrite Hms. clear Hms.
  apply parse_tasks_names in Htask.
  unfold task_materials, fixture in Hm.
  destruct Htask as [-> | [<- | [<- | [<- | [<- | [<- | []]]]]]]; cbn [task_name] in *;
    repeat match type of Hm with
    | context [name_has ?p ?n] =>
        let b := eval vm_compute in (name_has p n) in
        change (name_has p n) with b in Hm; cbn iota in Hm
    end;
    try (injection Hm as <- _; left; split; [simpl; tauto | reflexivity]);
    match type of Hm with
    | bind ?r _ = _ => destruct r as [cost |]; cbn [bind] in Hm; [| discriminate]
    end;
    injection Hm as <- _; right; eexists; exists cost; (split; [simpl; tauto | reflexivity]).
Qed.

Lemma quote_material_lines_witness :
  exists q t,
    build_quote table_providers ascii_runtime uuid_a sample_transcript = Ok q
    /\ nth_error (quote_tasks q) 1 = Some t
    /\ Task.task_name t = "Repaint Walls"%string
    /\ Task.materials t = [].
Proof.
  destruct (build_quote table_providers ascii_runtime uuid_a sample_transcript)
    as [q |] eqn:Hq; [| vm_compute in Hq; discriminate].
  destruct (nth_error (quote_tasks q) 1) as [t |] eqn:Ht.
  - exists q, t. split; [reflexivity |]. split; [exact Ht |].
    assert (Hn : Task.task_name t = "Repaint Walls"%string).
    { vm_compute in Hq. injection Hq as <-. vm_compute in Ht. injection Ht as <-. reflexivity. }
    split; [exact Hn |].
    destruct (quote_material_lines table_providers ascii_runtime uuid_a sample_transcript
                q t Hq (nth_error_In _ _ Ht)) as [[_ H] | (sku & cost & H & _)];
      [exact H |].
    exfalso. rewrite Hn in H. simpl in H.
    repeat (destruct H as [H | H]; [discriminate |]). exact H.
  - exfalso. vm_compute in Hq. injection Hq as <-. vm_compute in Ht. discriminate.
Defined.

(** ** Prices of a task record *)

(** Every task record of a produced quote carries the margin rate
    [max(0.12, 0.05)], and its three price fields are the roundings of the
    engine's own chain of operations on its base cost (labour cost plus
    material totals), margin rate and VAT rate: with
    [price = base + base * margin_pct],
    [price_ex_vat = round(price, 2)],
    [vat_amount = round(price * vat_rate, 2)] and
    [total_price = round(price + price * vat_rate, 2)]; its duration is its
    labour hours. *)
Theorem task_record_price_formula (P : Providers) (U : PyUnicode) (uuid : string)
  (text : str) (q : Quote.t) (t : Task.t) :
  build_quote P U uuid text = Ok q ->
  In t (quote_tasks q) ->
  let price := base_cost t + base_cost t * Task.margin_pct t in
  Task.margin_pct t = py_max (12 # 100) (5 # 100)
  /\ Task.price_ex_vat t = round2 price
  /\ Task.vat_amount t = round2 (price * Task.vat_rate t)
  /\ Task.total_price t = round2 (price + price * Task.vat_rate t)
  /\ Task.estimated_duration_hours t = Labor.hours (Task.labor t).
Proof.
  intros Hq Hin. cbn zeta.
  destruct (quote_task_origin P U uuid text q t Hq Hin) as (task & l & _ & Hl & ->).
  destruct (price_task_Ok P _ _ _ Hl)
    as (ms & c & Hm & _ & _ & Hms & Hc & Hb & Hg & Hp & _ & Hv & Ht & _).
  apply task_materials_total in Hm.
  unfold base_cost, task_record.
  cbn [Task.price_ex_vat Task.margin_pct Task.labor Task.materials Task.total_price
       Task.vat_amount Task.vat_rate Task.estimated_duration_hours Labor.cost Labor.hours].
  assert (Ep : Locals.price_ex_vat l
               == (Locals.labor_cost l + Qsum (map Material.total (Locals.materials l)))
                  + (Locals.labor_cost l + Qsum (map Material.total (Locals.materials l)))
                    * Locals.margin_pct l).
  { rewrite Hp, Hb, Hms, Hm. reflexivity. }
  split; [rewrite Hg; reflexivity |].
  split; [apply round2_comp; exact Ep |].
  split; [apply round2_comp; rewrite Hv, Ep; reflexivity |].
  split; [apply round2_comp; rewrite Ht, Hv, Ep; reflexivity | reflexivity].
Qed.

Lemma task_record_price_formula_witness :
  exists q t,
    build_quote table_providers ascii_runtime uuid_a sample_transcript = Ok q
    /\ nth_error (quote_tasks q) 0 = Some t
    /\ Task.price_ex_vat t = round2 (base_cost t + base_cost t * Task.margin_pct t).
Proof.
  destruct (build_quote table_providers ascii_runtime uuid_a sample_transcript)
    as [q |] eqn:Hq; [| vm_compute in Hq; discriminate].
  destruct (nth_error (quote_tasks q) 0) as [t |] eqn:Ht.
  - exists q, t. split; [reflexivity |]. split; [exact Ht |].
    apply (task_record_price_formula table_providers ascii_runtime uuid_a
             sample_transcript q t Hq (nth_error_In _ _ Ht)).
  - exfalso. vm_compute in Hq. injection Hq as <-. vm_compute in Ht. discriminate.
Defined.

(** ** Summary totals from the task records *)

Lemma Qsum_pointwise (A : Type) (f g : A -> Q) (l : list A) :
  (forall x, In x l -> f x == g x) -> Qsum (map f l) == Qsum (map g l).
Proof.
  induction l as [| x l IH]; intros H; [reflexivity |].
  cbn [map]. rewrite !Qsum_cons, (H x (or_introl eq_refl)), IH; [reflexivity |].
  intros y Hy. apply H. right. exact Hy.
Qed.

(** The labour, material and duration totals of the summary are the
    roundings of the sums of fields the task records show unrounded: the
    labour costs, the material totals and the durations.  They can be
    recomputed from the quote without any tolerance. *)
Theorem summary_totals_from_records (P : Providers) (U : PyUnicode) (uuid : string)
  (text : str) (q : Quote.t) :
  build_quote P U uuid text = Ok q ->
  let s := Quote.summary q in
  let ts := quote_tasks q in
  Summary.total_labor_cost s
  = round2 (Qsum (map (fun t => Labor.cost (Task.labor t)) ts))
  /\ Summary.total_material_cost s
     = round2 (Qsum (map (fun t => Qsum (map Material.total (Task.materials t))) ts))
  /\ Summary.estimated_duration_hours s
     = round2 (Qsum (map Task.estimated_duration_hours ts)).
Proof.
  intros Hq. cbn zeta.
  apply build_quote_Ok in Hq. cbn zeta in Hq. destruct Hq as [ls [Hls ->]].
  set (city := city_or_generic (Parsed.city (parse_transcript U text))) in *.
  set (tasks := Parsed.tasks (parse_transcript U text)) in *.
  pose proof (accumulate_all_sums (hourly_rate P city) (combine tasks ls) acc0) as Hs.
  cbn zeta in Hs.
  destruct Hs as (H1 & H2 & _ & _ & H5 & _ & _).
  cbn [acc0 Acc.total_labor_cost Acc.total_material_cost Acc.total_hours] in H1, H2, H5.
  rewrite quote_tasks_out_json.
  unfold out_json. cbn [Quote.summary Summary.total_labor_cost Summary.total_material_cost
    Summary.estimated_duration_hours].
  rewrite !map_map in *.
  cbn [task_record Task.labor Labor.cost Task.materials Task.estimated_duration_hours].
  split; [apply round2_comp; rewrite H1; ring |].
  split; [| apply round2_comp; rewrite H5; ring].
  apply round2_comp. rewrite H2, Qplus_0_l.
  apply Qsum_pointwise. intros x Hx.
  destruct (price_all_In P _ _ _ _ Hls Hx) as (_ & _ & Hp).
  destruct (price_task_Ok P _ _ _ Hp) as (ms & c & Hm & _ & _ & Hms & Hc & _).
  apply task_materials_total in Hm. rewrite Hms, Hc, Hm. reflexivity.
Qed.

Lemma summary_totals_from_records_witness :
  exists q,
    build_quote table_providers ascii_runtime uuid_a sample_transcript = Ok q
    /\ Summary.total_labor_cost (Quote.summary q)
       = round2 (Qsum (map (fun t => Labor.cost (Task.labor t)) (quote_tasks q))).
Proof.
  destruct (build_quote table_providers ascii_runtime uuid_a sample_transcript)
    as [q |] eqn:Hq; [| vm_compute in Hq; discriminate].
  exists q. split; [reflexivity |].
  exact (proj1 (summary_totals_from_records table_providers ascii_runtime uuid_a
                  sample_transcript q Hq)).
Defined.

(** ** The providers are asked about one city *)

(** The providers are consulted for the quote's location only: the hourly
    rate, labour cost, VAT rate and material lines of every task are their
    answers for it, and providers that answer alike for that one city
    produce the same quote. *)
Theorem lookups_use_quote_location (P : Providers) (U : PyUnicode) (uuid : string)
  (text : str) (q : Quote.t) :
  build_quote P U uuid text = Ok q ->
  (forall t, In t (quote_tasks q) ->
     Labor.hourly_rate (Task.labor t) = hourly_rate P (Quote.location q)
     /\ Labor.cost (Task.labor t)
        = compute_labor_cost P (Labor.hours (Task.labor t)) (Quote.location q)
     /\ Task.vat_rate t = get_vat_rate P (Task.task_name t) (Quote.location q)
     /\ forall m, In m (Task.materials t) ->
          get_material_cost P (Material.name m) (Material.qty m) (Quote.location q)
          = Ok (Material.total m))
  /\ (forall P', agree_at (Quote.location q) P P' -> build_quote P' U uuid text = Ok q).
Proof.
  intros Hq.
  assert (Eloc : Quote.location q
                 = city_or_generic (Parsed.city (parse_transcript U text))).
  { apply build_quote_Ok in Hq. cbn zeta in Hq. destruct Hq as [ls [_ ->]]. reflexivity. }
  split.
  - intros t Hin.
    destruct (quote_task_origin P U uuid text q t Hq Hin) as (task & l & _ & Hl & ->).
    rewrite Eloc.
    destruct (price_task_Ok P _ _ _ Hl)
      as (ms & c & Hm & _ & Hlc & Hms & _ & _ & _ & _ & Hvr & _).
    unfold task_record.
    cbn [Task.labor Task.vat_rate Task.task_name Task.materials
         Labor.hourly_rate Labor.cost Labor.hours].
    repeat split; [exact Hlc | exact Hvr |].
    intros m Hmin. rewrite Hms in Hmin.
    exact (task_materials_lookups P _ _ _ _ m Hm Hmin).
  - intros P' Hag. rewrite Eloc in Hag. rewrite <- Hq.
    unfold build_quote. cbn zeta.
    pose proof Hag as (_ & _ & _ & Hr & _). rewrite <- Hr.
    rewrite (loop_ext P P' _ _ _ acc0 Hag). reflexivity.
Qed.

Lemma lookups_use_quote_location_witness :
  exists q,
    build_quote table_providers ascii_runtime uuid_a sample_transcript = Ok q
    /\ forall t, In t (quote_tasks q) ->
         Labor.hourly_rate (Task.labor t) = hourly_rate table_providers (Quote.location q).
Proof.
  destruct (build_quote table_providers ascii_runtime uuid_a sample_transcript)
    as [q |] eqn:Hq; [| vm_compute in Hq; discriminate].
  exists q. split; [reflexivity |].
  intros t Ht.
  exact (proj1 (proj1 (lookups_use_quote_location table_providers ascii_runtime uuid_a
                         sample_transcript q Hq) t Ht)).
Defined.

(** ** What a quote depends on *)

(** The engine reads the task list, the city and the zone of the parse and
    nothing else of the transcript. *)
Lemma build_quote_of_parse (P : Providers) (U : PyUnicode) (uuid : string) (t1 t2 : str) :
  Parsed.tasks (parse_transcript U t1) = Parsed.tasks (parse_transcript U t2) ->
  Parsed.city (parse_transcript U t1) = Parsed.city (parse_transcript U t2) ->
  Parsed.zone (parse_transcript U t1) = Parsed.zone (parse_transcript U t2) ->
  build_quote P U uuid t2
  = match build_quote P U uuid t1 with
    | Ok q => Ok (with_raw_transcript t2 q)
    | Raise e => Raise e
    end.
Proof.
  intros Ht Hc Hz. unfold build_quote. cbn zeta. rewrite Ht, Hc, Hz.
  destruct (loop P _ _ acc0 _) as [acc |]; reflexivity.
Qed.

(** The budget flag and the parsed area are computed and then left unused,
    but for the area the tiling task carries: two transcripts with the same
    task list, city and zone get the same quote, up to the transcript it
    echoes. *)
Theorem quote_ignores_budget_flag (P : Providers) (U : PyUnicode) (uuid : string)
  (t1 t2 : str) :
  Parsed.tasks (parse_transcript U t1) = Parsed.tasks (parse_transcript U t2) ->
  Parsed.city (parse_transcript U t1) = Parsed.city (parse_transcript U t2) ->
  Parsed.zone (parse_transcript U t1) = Parsed.zone (parse_transcript U t2) ->
  build_quote P U uuid t2
  = match build_quote P U uuid t1 with
    | Ok q => Ok (with_raw_transcript t2 q)
    | Raise e => Raise e
    end.
Proof.
  apply build_quote_of_parse.
Qed.

Lemma quote_ignores_budget_flag_witness :
  Parsed.budget_flag (parse_transcript ascii_runtime (lit "Low budget: new toilet, 3 m2 room"))
  <> Parsed.budget_flag (parse_transcript ascii_runtime (lit "New toilet"))
  /\ Parsed.area_m2 (parse_transcript ascii_runtime (lit "Low budget: new toilet, 3 m2 room"))
     <> Parsed.area_m2 (parse_transcript ascii_runtime (lit "New toilet"))
  /\ build_quote table_providers ascii_runtime uuid_a (lit "New toilet")
     = match build_quote table_providers ascii_runtime uuid_a
               (lit "Low budget: new toilet, 3 m2 room") with
       | Ok q => Ok (with_raw_transcript (lit "New toilet") q)
       | Raise e => Raise e
       end.
Proof.
  split; [vm_compute; discriminate |].
  split; [vm_compute; discriminate |].
  apply (quote_ignores_budget_flag table_providers ascii_runtime uuid_a
           (lit "Low budget: new toilet, 3 m2 room") (lit "New toilet"));
    vm_compute; reflexivity.
Defined.

(** Matching is case-insensitive: two transcripts with the same lowercase
    form get the same quote, up to the transcript it echoes. *)
Theorem quote_is_case_insensitive (P : Providers) (U : PyUnicode) (uuid : string)
  (t1 t2 : str) :
  str_lower U t1 = str_lower U t2 ->
  build_quote P U uuid t2
  = match build_quote P U uuid t1 with
    | Ok q => Ok (with_raw_transcript t2 q)
    | Raise e => Raise e
    end.
Proof.
  intros H.
  assert (E : parse_transcript U t1 = parse_transcript U t2).
  { unfold parse_transcript. rewrite H. reflexivity. }
  apply build_quote_of_parse; rewrite E; reflexivity.
Qed.

Lemma quote_is_case_insensitive_witness :
  build_quote table_providers ascii_runtime uuid_a (lit "replace the toilet in paris, 2 m2")
  = match build_quote table_providers ascii_runtime uuid_a
            (lit "REPLACE the Toilet in Paris, 2 M2") with
    | Ok q => Ok (with_raw_transcript (lit "replace the toilet in paris, 2 m2") q)
    | Raise e => Raise e
    end.
Proof.
  apply (quote_is_case_insensitive table_providers ascii_runtime uuid_a
           (lit "REPLACE the Toilet in Paris, 2 M2")
           (lit "replace the toilet in paris, 2 m2")).
  vm_compute. reflexivity.
Defined.

(** ** The identifier *)

Lemma substring_0_length (n : nat) (s : string) :
  String.length (substring 0 n s) = Nat.min n (String.length s).
Proof.
  revert s. induction n as [| n IH]; intros s.
  - destruct s; reflexivity.
  - destruct s as [| c s]; [reflexivity |]. simpl. rewrite IH. reflexivity.
Qed.

Lemma substring_0_all (s : string) : substring 0 (String.length s) s = s.
Proof.
  induction s as [| c s IH]; [reflexivity |]. simpl. rewrite IH. reflexivity.
Qed.

(** An identifier is "donizo-" followed by the first eight characters of the
    UUID's hexadecimal form, which can be read back from it; with at least
    eight characters to take from it is fifteen characters long. *)
Theorem quote_id_shape (uuid_hex : string) :
  substring 0 7 (generate_quote_id uuid_hex) = "donizo-"%string
  /\ substring 7 8 (generate_quote_id uuid_hex) = substring 0 8 uuid_hex
  /\ String.length (generate_quote_id uuid_hex)
     = (7 + Nat.min 8 (String.length uuid_hex))%nat
  /\ ((8 <= String.length uuid_hex)%nat ->
      String.length (generate_quote_id uuid_hex) = 15%nat).
Proof.
  unfold generate_quote_id.
  assert (Hl : String.length ("donizo-" ++ substring 0 8 uuid_hex)
               = (7 + Nat.min 8 (String.length uuid_hex))%nat).
  { cbn [append String.length]. rewrite substring_0_length. reflexivity. }
  split; [simpl; destruct (substring 0 8 uuid_hex); reflexivity |].
  split.
  - cbn [append substring].
    rewrite <- (substring_0_all (substring 0 8 uuid_hex)) at 2.
    rewrite substring_0_length.
    destruct uuid_hex as [| c1 [| c2 [| c3 [| c4 [| c5 [| c6 [| c7 [| c8 r]]]]]]]];
      reflexivity.
  - split; [exact Hl |]. intros H. rewrite Hl. lia.
Qed.

(** ** Where an exception can come from *)

Lemma price_all_Raise (P : Providers) (city : string) (tasks : list TaskIntent) (e : exn) :
  price_all P city tasks = Raise e ->
  exists task, In task tasks /\ price_task P city task = Raise e.
Proof.
  induction tasks as [| task rest IH]; intros H; simpl in H; [discriminate |].
  destruct (price_task P city task) as [l |] eqn:El; cbn [bind] in H.
  - destruct (price_all P city rest) as [ls |]; cbn [bind] in H; [discriminate |].
    destruct (IH H) as (t & Ht & Hp). exists t. split; [right; exact Ht | exact Hp].
  - injection H as <-. exists task. split; [left; reflexivity | exact El].
Qed.

(** The engine raises nothing of its own: when a call raises, the exception
    is the one [get_material_cost] raised for a quantity of one of a
    fixture of a parsed task, in the quote's city.  In particular no
    division by an area of zero or [None] is ever reached. *)
Theorem build_quote_raises_only_from_provider (P : Providers) (U : PyUnicode)
  (uuid : string) (text : str) (e : exn) :
  build_quote P U uuid text = Raise e ->
  let parsed := parse_transcript U text in
  exists tname sku,
    In tname (map task_name (Parsed.tasks parsed))
    /\ In (tname, sku)
         [ ("Shower Plumbing (redo)", "plumbing_parts");
           ("Replace Toilet", "toilet_standard");
           ("Install Vanity", "vanity_basic");
           ("Demolition & Disposal", "disposal_fee") ]%string
    /\ get_material_cost P sku (VNum 1) (city_or_generic (Parsed.city parsed)) = Raise e.
Proof.
  intros H. cbn zeta. unfold build_quote in H. cbn zeta in H.
  rewrite loop_price_all in H.
  destruct (price_all P _ _) as [ls |] eqn:Hls; cbn [bind] in H; [discriminate |].
  injection H as <-.
  destruct (price_all_Raise P _ _ _ Hls) as (task & Hin & Hp).
  unfold price_task in Hp.
  destruct (task_materials P task _) as [[ms c] |] eqn:Hm; cbn [bind] in Hp; [discriminate |].
  injection Hp as <-.
  exists (task_name task).
  pose proof (in_map task_name _ _ Hin) as Hname.
  apply parse_tasks_names in Hin.
  unfold task_materials, fixture in Hm.
  destruct Hin as [-> | [<- | [<- | [<- | [<- | [<- | []]]]]]]; cbn [task_name] in *;
    repeat match type of Hm with
    | context [name_has ?p ?n] =>
        let b := eval vm_compute in (name_has p n) in
        change (name_has p n) with b in Hm; cbn iota in Hm
    end;
    try discriminate;
    match type of Hm with
    | bind ?r _ = _ => destruct r as [cost |] eqn:Er; cbn [bind] in Hm; [discriminate |]
    end;
    injection Hm as <-; eexists; (split; [exact Hname |]);
    (split; [simpl; tauto | exact Er]).
Qed.

Lemma build_quote_raises_only_from_provider_witness :
  exists tname sku,
    In tname (map task_name
                (Parsed.tasks (parse_transcript ascii_runtime (lit "A new vanity in Lyon"))))
    /\ In (tname, sku)
         [ ("Shower Plumbing (redo)", "plumbing_parts");
           ("Replace Toilet", "toilet_standard");
           ("Install Vanity", "vanity_basic");
           ("Demolition & Disposal", "disposal_fee") ]%string
    /\ get_material_cost (down_providers "Lyon") sku (VNum 1) "Lyon"
       = Raise (ProviderError "no price list").
Proof.
  apply (build_quote_raises_only_from_provider (down_providers "Lyon") ascii_runtime uuid_a
           (lit "A new vanity in Lyon") (ProviderError "no price list")).
  reflexivity.
Defined.

(** ** Which keyword yields which task *)

Lemma repaint_is_paint (low : str) :
  str_in (lit "paint") low || str_in (lit "repaint") low = str_in (lit "paint") low.
Proof.
  destruct (str_in (lit "paint") low) eqn:Ep; [reflexivity |].
  destruct (str_in (lit "repaint") low) eqn:Er; [| reflexivity].
  exfalso.
  assert (H : str_in (lit "paint") low = true)
    by (apply (str_in_trans _ (lit "repaint")); [reflexivity | exact Er]).
  congruence.
Qed.

(** A task is in the parsed list exactly when its keyword occurs in the
    lowercased transcript: "tile", "paint", "plumb", "toilet", "vanity", and
    for the demolition either of its two phrases.  The alternative
    "repaint" adds nothing to "paint". *)
Theorem parsed_task_iff_keyword (U : PyUnicode) (text : str) :
  let low := str_lower U text in
  let names := map task_name (Parsed.tasks (parse_transcript U text)) in
  (In "Floor Tiling (ceramic)"%string names <-> str_in (lit "tile") low = true)
  /\ (In "Repaint Walls"%string names <-> str_in (lit "paint") low = true)
  /\ (In "Shower Plumbing (redo)"%string names <-> str_in (lit "plumb") low = true)
  /\ (In "Replace Toilet"%string names <-> str_in (lit "toilet") low = true)
  /\ (In "Install Vanity"%string names <-> str_in (lit "vanity") low = true)
  /\ (In "Demolition & Disposal"%string names
      <-> str_in (lit "remove old tile") low = true
          \/ str_in (lit "remove the old tiles") low = true).
Proof.
  cbn zeta. unfold parse_transcript, append_if. cbn [Parsed.tasks].
  rewrite repaint_is_paint. rewrite <- orb_true_iff.
  set (b1 := str_in (lit "tile") (str_lower U text)).
  set (b2 := str_in (lit "paint") (str_lower U text)).
  set (b3 := str_in (lit "plumb") (str_lower U text)).
  set (b4 := str_in (lit "toilet") (str_lower U text)).
  set (b5 := str_in (lit "vanity") (str_lower U text)).
  set (b6 := str_in (lit "remove old tile") (str_lower U text)
             || str_in (lit "remove the old tiles") (str_lower U text)).
  assert (Hin : forall (x : string) (l : list string),
             In x l <-> existsb (String.eqb x) l = true).
  { intros x l. rewrite existsb_exists. split.
    - intros H. exists x. split; [exact H | apply String.eqb_refl].
    - intros [y [Hy He]]. apply String.eqb_eq in He. subst y. exact Hy. }
  rewrite !Hin.
  destruct b1, b2, b3, b4, b5, b6; vm_compute; intuition congruence.
Qed.

(** ** Consistency of the summary *)

Lemma Qsum_total_decomposition (P : Providers) (city : string)
  (tasks : list TaskIntent) (ls : list Locals.t) :
  price_all P city tasks = Ok ls ->
  Qsum (map Locals.total_task_price ls)
  == (112 # 100) * (Qsum (map Locals.labor_cost ls) + Qsum (map Locals.mat_cost ls))
     + Qsum (map Locals.vat_amount ls).
Proof.
  intros H. apply price_all_Forall2 in H.
  induction H as [| task l tasks ls Hl _ IH]; [reflexivity |].
  cbn [map]. rewrite !Qsum_cons, IH.
  destruct (price_task_Ok P _ _ _ Hl)
    as (ms & c & _ & _ & _ & _ & Hc & Hb & Hg & Hp & _ & _ & Ht & _).
  rewrite Ht, Hp, Hg, Hb, Hc. ring.
Qed.

(** The totals of a summary fit together: the total price is the labour and
    material totals with the 12% margin, plus the VAT total, up to the
    rounding of the four fields (0.0212 at most); and the VAT total is the
    sum of the tasks' VAT amounts up to half a cent per task and half a
    cent more. *)
Theorem summary_fields_consistent (P : Providers) (U : PyUnicode) (uuid : string)
  (text : str) (q : Quote.t) :
  build_quote P U uuid text = Ok q ->
  let s := Quote.summary q in
  Qabs (Summary.total_price s
        - ((112 # 100) * (Summary.total_labor_cost s + Summary.total_material_cost s)
           + Summary.total_vat s)) <= 212 # 10000
  /\ Qabs (Summary.total_vat s - Qsum (map Task.vat_amount (quote_tasks q))) <= 7 # 200.
Proof.
  intros Hq. cbn zeta.
  apply build_quote_Ok in Hq. cbn zeta in Hq. destruct Hq as [ls [Hls ->]].
  set (city := city_or_generic (Parsed.city (parse_transcript U text))) in *.
  set (tasks := Parsed.tasks (parse_transcript U text)) in *.
  pose proof (accumulate_all_sums (hourly_rate P city) (combine tasks ls) acc0) as Hs.
  cbn zeta in Hs. rewrite (price_all_snd P _ _ _ Hls) in Hs.
  destruct Hs as (H1 & H2 & H3 & H4 & _ & _ & _).
  cbn [acc0 Acc.total_labor_cost Acc.total_material_cost Acc.total_vat Acc.total_price]
    in H1, H2, H3, H4.
  pose proof (Qsum_total_decomposition P _ _ _ Hls) as Hd.
  rewrite quote_tasks_out_json.
  unfold out_json. cbn [Quote.summary Summary.total_labor_cost Summary.total_material_cost
    Summary.total_vat Summary.total_price].
  set (a := accumulate_all (hourly_rate P city) acc0 (combine tasks ls)) in *.
  pose proof (round2_bound (Acc.total_labor_cost a)) as B1.
  pose proof (round2_bound (Acc.total_material_cost a)) as B2.
  pose proof (round2_bound (Acc.total_vat a)) as B3.
  pose proof (round2_bound (Acc.total_price a)) as B4.
  apply Qabs_Qle_condition in B1, B2, B3, B4.
  split.
  - apply Qabs_Qle_condition. split; lra.
  - assert (Hf : map Task.vat_amount
                   (map (fun x => task_record (hourly_rate P city) (fst x) (snd x))
                      (combine tasks ls))
                 = map round2 (map Locals.vat_amount ls)).
    { rewrite !map_map. cbn [task_record Task.vat_amount].
      rewrite <- (price_all_snd P _ _ _ Hls) at 2. rewrite map_map. reflexivity. }
    rewrite Hf.
    pose proof (Qsum_round2_bound (map Locals.vat_amount ls)) as Hr.
    rewrite length_map in Hr. apply Qabs_Qle_condition in Hr.
    assert (Hn : inject_Z (Z.of_nat (List.length ls)) <= 6).
    { pose proof (parse_tasks_at_most_six U text) as H6. fold tasks in H6.
      rewrite <- (price_all_length P _ _ _ Hls) in H6.
      change 6 with (inject_Z 6). rewrite <- Zle_Qle. lia. }
    apply Qabs_Qle_condition. split; lra.
Qed.

Lemma summary_fields_consistent_witness :
  exists q,
    build_quote table_providers ascii_runtime uuid_a sample_transcript = Ok q
    /\ Qabs (Summary.total_price (Quote.summary q)
             - ((112 # 100) * (Summary.total_labor_cost (Quote.summary q)
                               + Summary.total_material_cost (Quote.summary q))
                + Summary.total_vat (Quote.summary q))) <= 212 # 10000.
Proof.
  destruct (build_quote table_providers ascii_runtime uuid_a sample_transcript)
    as [q |] eqn:Hq; [| vm_compute in Hq; discriminate].
  exists q. split; [reflexivity |].
  exact (proj1 (summary_fields_consistent table_providers ascii_runtime uuid_a
                  sample_transcript q Hq)).
Defined.
